(** * cvpysdk/client.py: the client registry ([Clients]) and the client
    entity ([Client]), embedded as state-passing functions.

    Python values are modelled by [pyval] (the values a decoded JSON
    document is made of); strings are sequences of bytes, text in UTF-8,
    and [lower] and [upper] map the ASCII letters, which is what
    [str.lower] and [str.upper] do on ASCII text.  Exceptions are values
    of [exn]; a method is a function from the world (the requests sent so
    far and the clock) to a result and the new world. *)

From Stdlib Require Import ZArith Bool Ascii String.
From Stdlib Require Import Floats.PrimFloat.
From stdpp Require Import base strings list gmap pretty.

Set Warnings "-register-all".
Local Open Scope Z_scope.
Local Open Scope string_scope.

(** ** Python values *)

Inductive pyval : Type :=
| PyNone
| PyBool (b : bool)
| PyInt (n : Z)
| PyFloat (f : float)
| PyStr (s : string)
| PyList (items : list pyval)
| PyDict (entries : list (string * pyval)).

(** [d.get(k)] on the entries of a dict (keys of a dict are unique). *)
Fixpoint dict_get (entries : list (string * pyval)) (k : string) : option pyval :=
  match entries with
  | [] => None
  | (k', v) :: rest => if String.eqb k' k then Some v else dict_get rest k
  end.

(** [bool(v)] *)
Definition py_truthy (v : pyval) : bool :=
  match v with
  | PyNone => false
  | PyBool b => b
  | PyInt n => negb (Z.eqb n 0)
  | PyFloat f => negb (PrimFloat.eqb f 0%float)
  | PyStr s => negb (String.eqb s EmptyString)
  | PyList items => match items with [] => false | _ => true end
  | PyDict entries => match entries with [] => false | _ => true end
  end.

(** [v is True] *)
Definition py_is_True (v : pyval) : bool :=
  match v with
  | PyBool true => true
  | _ => false
  end.

(** [v == n] for one of the integer literals of the module (0, 1, 2, 16),
    given as an integer [n] and as the float [nf] of the same value. *)
Definition py_eq_int (v : pyval) (n : Z) (nf : float) : bool :=
  match v with
  | PyInt m => Z.eqb m n
  | PyBool b => Z.eqb (if b then 1 else 0) n
  | PyFloat f => PrimFloat.eqb f nf
  | _ => false
  end.

Definition py_eq_0 (v : pyval) : bool := py_eq_int v 0 0%float.

(** [v == s] for a string literal [s] *)
Definition py_eq_str (v : pyval) (s : string) : bool :=
  match v with
  | PyStr t => String.eqb t s
  | _ => false
  end.

Definition isinstance_str (v : pyval) : bool :=
  match v with
  | PyStr _ => true
  | _ => false
  end.

(** ** Strings *)

Definition ascii_lower (c : ascii) : ascii :=
  let n := N_of_ascii c in
  if ((65 <=? n) && (n <=? 90))%N then ascii_of_N (n + 32) else c.

Definition ascii_upper (c : ascii) : ascii :=
  let n := N_of_ascii c in
  if ((97 <=? n) && (n <=? 122))%N then ascii_of_N (n - 32) else c.

Fixpoint lower (s : string) : string :=
  match s with
  | EmptyString => EmptyString
  | String c rest => String (ascii_lower c) (lower rest)
  end.

Fixpoint upper (s : string) : string :=
  match s with
  | EmptyString => EmptyString
  | String c rest => String (ascii_upper c) (upper rest)
  end.

Fixpoint is_prefix (p s : string) : bool :=
  match p, s with
  | EmptyString, _ => true
  | String a p', String b s' => Ascii.eqb a b && is_prefix p' s'
  | String _ _, EmptyString => false
  end.

(** [p in s] on strings *)
Fixpoint is_substring (p s : string) : bool :=
  is_prefix p s ||
  match s with
  | EmptyString => false
  | String _ s' => is_substring p s'
  end.

Definition newline : string := String (ascii_of_N 10) EmptyString.
Definition dquote : string := String (ascii_of_N 34) EmptyString.

(** ** Exceptions and results *)

(** Modelled from the spec: the class [SDKException] of exception.py, which
    is not among the sources.  It is raised with a module name, an
    identifier and an optional message, and it is not a [ValueError]: the
    spec has [TimeInPast] (Client/103) leave the validation block as it
    is.  The spec's names are: InvalidArgument = Client/101,
    NotFound, OperationFailed and DeleteFailed = Client/102,
    TimeInPast = Client/103, InvalidTimeFormat = Client/104,
    HttpFailure = Response/101, EmptyResponse = Response/102. *)
Inductive exn : Type :=
| SDKException (exception_module exception_id : string) (exception_message : option string)
| KeyError (key : pyval)
| IndexError
| TypeError
| ValueError
| OverflowError
| RecursionError.

Inductive result (A : Type) : Type :=
| Return (a : A)
| Raise (e : exn).
Arguments Return {A} a.
Arguments Raise {A} e.

Definition rbind {A B : Type} (r : result A) (k : A -> result B) : result B :=
  match r with
  | Return a => k a
  | Raise e => Raise e
  end.

Notation "x <-? r ;; k" := (rbind r (fun x => k))
  (at level 100, r at next level, right associativity).

(** [v[k]] for a string key *)
Definition py_getitem (v : pyval) (k : string) : result pyval :=
  match v with
  | PyDict entries =>
      match dict_get entries k with
      | Some x => Return x
      | None => Raise (KeyError (PyStr k))
      end
  | _ => Raise TypeError
  end.

(** [v[0]] *)
Definition py_getitem_0 (v : pyval) : result pyval :=
  match v with
  | PyList items =>
      match items with
      | x :: _ => Return x
      | [] => Raise IndexError
      end
  | PyStr s =>
      match s with
      | String c _ => Return (PyStr (String c EmptyString))
      | EmptyString => Raise IndexError
      end
  | PyDict _ => Raise (KeyError (PyInt 0))
  | _ => Raise TypeError
  end.

(** [k in v] for a string [k] *)
Definition py_contains (k : string) (v : pyval) : result bool :=
  match v with
  | PyDict entries =>
      Return (match dict_get entries k with Some _ => true | None => false end)
  | PyList items => Return (existsb (fun x => py_eq_str x k) items)
  | PyStr s => Return (is_substring k s)
  | _ => Raise TypeError
  end.

(** [for x in v]: the elements the loop visits *)
Definition py_iter (v : pyval) : result (list pyval) :=
  match v with
  | PyList items => Return items
  | PyDict entries => Return (map (fun kv => PyStr (fst kv)) entries)
  | PyStr s => Return (map (fun c => PyStr (String c EmptyString)) (list_ascii_of_string s))
  | _ => Raise TypeError
  end.

(** ** The world: the transport and the clock *)

Record Request : Type := {
  method : string;
  url : string;
  payload : option pyval
}.

(** The response object of the transport: [response.json()] (which raises
    when the body cannot be decoded) and [response.text]. *)
Record Response : Type := {
  json : result pyval;
  text : string
}.

Record World : Type := {
  sent : list Request;
  clock : float
}.

(** The commcell object, as far as this module uses it:
    [_cvpysdk_object.make_request] (its reply may depend on the requests
    sent before), [_services.GET_ALL_CLIENTS], [_services.CLIENT % id] and
    [_update_response_]. *)
Record Commcell : Type := {
  make_request : list Request -> Request -> bool * Response;
  GET_ALL_CLIENTS : string;
  CLIENT : string -> string;
  _update_response_ : string -> string
}.

(** A computation over a state [S] that returns or raises. *)
Definition M (S A : Type) : Type := S -> result A * S.

Definition ret {S A : Type} (a : A) : M S A := fun s => (Return a, s).
Definition raise {S A : Type} (e : exn) : M S A := fun s => (Raise e, s).
Definition bind {S A B : Type} (m : M S A) (k : A -> M S B) : M S B :=
  fun s =>
    match m s with
    | (Return a, s') => k a s'
    | (Raise e, s') => (Raise e, s')
    end.
Definition liftR {S A : Type} (r : result A) : M S A := fun s => (r, s).

Notation "x <- m ;; k" := (bind m (fun x => k))
  (at level 100, m at next level, right associativity).
(** [try: body except ValueError: handler] *)
Definition try_except_ValueError {S A : Type} (body handler : M S A) : M S A :=
  fun s =>
    match body s with
    | (Raise ValueError, s') => handler s'
    | r => r
    end.

(** [commcell_object._cvpysdk_object.make_request(method, url, payload)] *)
Definition request (commcell_object : Commcell) (r : Request) : M World (bool * Response) :=
  fun w =>
    (Return (make_request commcell_object (sent w) r),
     {| sent := sent w ++ [r]; clock := clock w |}).

(** [time.time()] *)
Definition time_time : M World float := fun w => (Return (clock w), w).

(** ** The module *)

(** Python's built-ins and the classes of the other modules, which this
    module only calls: [repr] of a float, a list or a dict; [time.strptime]
    ([None] when it raises [ValueError]) and [time.mktime]; the classes
    [Agents] and [Schedules]. *)
Class Externals : Type := {
  py_repr : pyval -> string;
  struct_time : Type;
  time_strptime : string -> string -> option struct_time;
  time_mktime : struct_time -> result float;
  AgentsT : Type;
  SchedulesT : Type
}.

Section ClientModule.

Context {ext : Externals}.

(** [str(v)], which is also what ['{0}'.format(v)] inserts *)
Definition py_str (v : pyval) : string :=
  match v with
  | PyNone => "None"
  | PyBool true => "True"
  | PyBool false => "False"
  | PyInt n => pretty n
  | PyStr s => s
  | PyFloat _ | PyList _ | PyDict _ => py_repr v
  end.

(** *** class Clients *)

Record Clients : Type := {
  clients_commcell_object : Commcell;
  _CLIENTS : string;
  _clients : gmap string string
}.

(** The body of the loop of [_get_clients], over the entries still to
    visit. *)
Fixpoint _get_clients_loop (entries : list pyval) (clients_dict : gmap string string)
  : result (gmap string string) :=
  match entries with
  | [] => Return clients_dict
  | dictionary :: rest =>
      client <-? py_getitem dictionary "client";;
      entity <-? py_getitem client "clientEntity";;
      name <-? py_getitem entity "clientName";;
      let temp_name := lower (py_str name) in
      client' <-? py_getitem dictionary "client";;
      entity' <-? py_getitem client' "clientEntity";;
      id <-? py_getitem entity' "clientId";;
      let temp_id := lower (py_str id) in
      _get_clients_loop rest (<[temp_name := temp_id]> clients_dict)
  end.

(** [Clients._get_clients], which reads [self._commcell_object] and
    [self._CLIENTS]. *)
Definition _get_clients (commcell_object : Commcell) (CLIENTS : string)
  : M World (gmap string string) :=
  fr <- request commcell_object {| method := "GET"; url := CLIENTS; payload := None |};;
  let flag := fst fr in
  let response := snd fr in
  if flag then
    body <- liftR (json response);;
    has <- (if py_truthy body then liftR (py_contains "clientProperties" body)
            else ret false);;
    if has then
      props <- liftR (py_getitem body "clientProperties");;
      entries <- liftR (py_iter props);;
      liftR (_get_clients_loop entries ∅)
    else raise (SDKException "Response" "102" None)
  else
    let response_string := _update_response_ commcell_object (text response) in
    raise (SDKException "Response" "101" (Some response_string)).

(** [Clients.__init__] *)
Definition Clients__init__ (commcell_object : Commcell) : M World Clients :=
  let CLIENTS := GET_ALL_CLIENTS commcell_object in
  clients <- _get_clients commcell_object CLIENTS;;
  ret {| clients_commcell_object := commcell_object;
         _CLIENTS := CLIENTS;
         _clients := clients |}.

(** What [has_client] returns: [self._clients and ...] is the dict itself
    when the dict is empty, and the truth value of the membership test
    otherwise. *)
Inductive has_client_value : Type :=
| HasDict (d : gmap string string)
| HasBool (b : bool).

Definition has_client_truthy (v : has_client_value) : bool :=
  match v with
  | HasDict d => negb (bool_decide (d = ∅))
  | HasBool b => b
  end.

(** [Clients.has_client] *)
Definition has_client (self : Clients) (client_name : pyval) : result has_client_value :=
  if negb (isinstance_str client_name) then
    Raise (SDKException "Client" "101" None)
  else if bool_decide (_clients self = ∅) then
    Return (HasDict (_clients self))
  else
    Return (HasBool (bool_decide (is_Some (_clients self !! lower (py_str client_name))))).

(** *** class Client *)

Record Client : Type := {
  _commcell_object : Commcell;
  _client_name : string;
  _client_id : string;
  _CLIENT : string;
  properties : pyval;
  _os_info : string;
  _data_recovery : string;
  _data_management : string;
  _online_content_index : string;
  _backup : option string;
  _restore : option string;
  _data_aging : option string;
  agents : option AgentsT;
  schedules : option SchedulesT
}.

(** The constructors [Agents(client)] and [Schedules(client)]. *)
Class Wrappers : Type := {
  Agents : Client -> M World AgentsT;
  Schedules : Client -> M World SchedulesT
}.

Context {wrappers : Wrappers}.

Definition client_id (self : Client) : string := _client_id self.
Definition client_name (self : Client) : string := _client_name self.

Definition Enabled_if_True (v : pyval) : string :=
  if py_is_True v then "Enabled" else "Disabled".

(** The attributes [_backup], [_restore] and [_data_aging], each unset
    until the loop of [_get_client_properties] assigns it. *)
Definition activity_flags : Type := (option string * option string * option string)%type.

Fixpoint activities_loop (activities : list pyval) (flags : activity_flags)
  : result activity_flags :=
  match activities with
  | [] => Return flags
  | activity :: rest =>
      let '(backup, restore, data_aging) := flags in
      ty <-? py_getitem activity "activityType";;
      if py_eq_int ty 1 1%float then
        en <-? py_getitem activity "enableActivityType";;
        activities_loop rest (Some (Enabled_if_True en), restore, data_aging)
      else if py_eq_int ty 2 2%float then
        en <-? py_getitem activity "enableActivityType";;
        activities_loop rest (backup, Some (Enabled_if_True en), data_aging)
      else if py_eq_int ty 16 16%float then
        en <-? py_getitem activity "enableActivityType";;
        activities_loop rest (backup, restore, Some (Enabled_if_True en))
      else
        activities_loop rest flags
  end.

(** The private attributes that [_get_client_properties] assigns. *)
Record snapshot : Type := {
  snap_os_info : string;
  snap_data_recovery : string;
  snap_data_management : string;
  snap_online_content_index : string;
  snap_flags : activity_flags
}.

Definition parse_client_properties (body : pyval) : result snapshot :=
  all <-? py_getitem body "clientProperties";;
  client_properties <-? py_getitem_0 all;;
  client <-? py_getitem client_properties "client";;
  os_info <-? py_getitem client "osInfo";;
  display <-? py_getitem os_info "OsDisplayInfo";;
  processor_type <-? py_getitem display "ProcessorType";;
  display' <-? py_getitem os_info "OsDisplayInfo";;
  os_name <-? py_getitem display' "OSName";;
  os_type <-? py_getitem os_info "Type";;
  os_subtype <-? py_getitem os_info "SubType";;
  let os_info_string :=
    py_str processor_type +:+ " " +:+ py_str os_type +:+ " " +:+ py_str os_subtype
    +:+ "  --  " +:+ py_str os_name in
  client_props <-? py_getitem client_properties "clientProps";;
  ac1 <-? py_getitem client_props "activityControl";;
  recovery <-? py_getitem ac1 "EnableDataRecovery";;
  ac2 <-? py_getitem client_props "activityControl";;
  management <-? py_getitem ac2 "EnableDataManagement";;
  ac3 <-? py_getitem client_props "activityControl";;
  content_index <-? py_getitem ac3 "EnableOnlineContentIndex";;
  cac <-? py_getitem client_props "clientActivityControl";;
  activities <-? py_getitem cac "activityControlOptions";;
  items <-? py_iter activities;;
  flags <-? activities_loop items (None, None, None);;
  Return {| snap_os_info := os_info_string;
            snap_data_recovery := Enabled_if_True recovery;
            snap_data_management := Enabled_if_True management;
            snap_online_content_index := Enabled_if_True content_index;
            snap_flags := flags |}.

(** [Client._get_client_properties], which reads [self._commcell_object]
    and [self._CLIENT]: the value it returns (no [return] statement is
    reached, so [None]) and the attributes it assigns. *)
Definition _get_client_properties (commcell_object : Commcell) (CLIENT_url : string)
  : M World (pyval * snapshot) :=
  fr <- request commcell_object {| method := "GET"; url := CLIENT_url; payload := None |};;
  let flag := fst fr in
  let response := snd fr in
  if flag then
    body <- liftR (json response);;
    has <- (if py_truthy body then liftR (py_contains "clientProperties" body)
            else ret false);;
    if has then
      snap <- liftR (parse_client_properties body);;
      ret (PyNone, snap)
    else raise (SDKException "Response" "102" None)
  else
    let response_string := _update_response_ commcell_object (text response) in
    raise (SDKException "Response" "101" (Some response_string)).

(** [Clients.get], open in the constructor of [Client] it calls. *)
Definition get_with (construct : Commcell -> pyval -> pyval -> M World Client)
  (self : Clients) (client_name : pyval) : M World Client :=
  if negb (isinstance_str client_name) then
    raise (SDKException "Client" "101" None)
  else
    let client_name := lower (py_str client_name) in
    found <- liftR (has_client self (PyStr client_name));;
    if has_client_truthy found then
      match _clients self !! client_name with
      | Some id => construct (clients_commcell_object self) (PyStr client_name) (PyStr id)
      | None => raise (KeyError (PyStr client_name))
      end
    else
      raise (SDKException "Client" "102"
               (Some ("No client exists with name: " +:+ client_name))).

(** [Client.__init__], with [Client._get_client_id] in the branch that
    needs it.  [depth] bounds the nesting of constructor calls through
    [_get_client_id] and [Clients.get]; Python raises [RecursionError]
    when its own bound is passed. *)
Fixpoint Client__init__ (depth : nat) (commcell_object : Commcell)
  (client_name client_id : pyval) : M World Client :=
  let name := lower (py_str client_name) in
  id <- (if py_truthy client_id then ret (py_str client_id)
         else
           match depth with
           | O => raise RecursionError
           | S depth' =>
               clients <- Clients__init__ commcell_object;;
               c <- get_with (Client__init__ depth') clients (PyStr name);;
               ret (_client_id c)
           end);;
  let CLIENT_url := CLIENT commcell_object id in
  rs <- _get_client_properties commcell_object CLIENT_url;;
  let snap := snd rs in
  let self :=
    {| _commcell_object := commcell_object;
       _client_name := name;
       _client_id := id;
       _CLIENT := CLIENT_url;
       properties := fst rs;
       _os_info := snap_os_info snap;
       _data_recovery := snap_data_recovery snap;
       _data_management := snap_data_management snap;
       _online_content_index := snap_online_content_index snap;
       _backup := fst (fst (snap_flags snap));
       _restore := snd (fst (snap_flags snap));
       _data_aging := snd (snap_flags snap);
       agents := None;
       schedules := None |} in
  a <- Agents self;;
  let self :=
    {| _commcell_object := commcell_object;
       _client_name := name;
       _client_id := id;
       _CLIENT := CLIENT_url;
       properties := fst rs;
       _os_info := snap_os_info snap;
       _data_recovery := snap_data_recovery snap;
       _data_management := snap_data_management snap;
       _online_content_index := snap_online_content_index snap;
       _backup := fst (fst (snap_flags snap));
       _restore := snd (fst (snap_flags snap));
       _data_aging := snd (snap_flags snap);
       agents := Some a;
       schedules := None |} in
  s <- Schedules self;;
  ret {| _commcell_object := commcell_object;
         _client_name := name;
         _client_id := id;
         _CLIENT := CLIENT_url;
         properties := fst rs;
         _os_info := snap_os_info snap;
         _data_recovery := snap_data_recovery snap;
         _data_management := snap_data_management snap;
         _online_content_index := snap_online_content_index snap;
         _backup := fst (fst (snap_flags snap));
         _restore := snd (fst (snap_flags snap));
         _data_aging := snd (snap_flags snap);
         agents := Some a;
         schedules := Some s |}.

(** [Clients.get] *)
Definition get (depth : nat) (self : Clients) (client_name : pyval) : M World Client :=
  get_with (Client__init__ depth) self client_name.

(** *** The activity request builder *)

Definition options_dict : pyval :=
  PyDict [("Backup", PyInt 1); ("Restore", PyInt 2); ("Data Aging", PyInt 16)].

Definition UTC_zone : string := "(UTC) Coordinated Universal Time".

(** [Client._request_json_] *)
Definition _request_json_ (self : Client) (opt : string) (enable enable_time : pyval)
  : result pyval :=
  code1 <-? py_getitem options_dict opt;;
  let request_json1 :=
    PyDict [
      ("association",
        PyDict [("entity", PyList [PyDict [("clientName", PyStr (client_name self))]])]);
      ("clientProperties",
        PyDict [("clientProps",
          PyDict [("clientActivityControl",
            PyDict [("activityControlOptions",
              PyList [PyDict [("activityType", code1);
                              ("enableAfterADelay", PyBool false);
                              ("enableActivityType", enable)]])])])])] in
  code2 <-? py_getitem options_dict opt;;
  let request_json2 :=
    PyDict [
      ("association",
        PyDict [("entity", PyList [PyDict [("clientName", PyStr (client_name self))]])]);
      ("clientProperties",
        PyDict [("clientProps",
          PyDict [("clientActivityControl",
            PyDict [("activityControlOptions",
              PyList [PyDict [("activityType", code2);
                              ("enableAfterADelay", PyBool true);
                              ("enableActivityType", PyBool false);
                              ("dateTime",
                                PyDict [("TimeZoneName", PyStr UTC_zone);
                                        ("timeValue", enable_time)])]])])])])] in
  if py_truthy enable_time then Return request_json2 else Return request_json1.

(** *** The activity operations *)

(** The statements that follow [make_request] in each of the nine
    operations; [failure] is the text of the operation, such as
    [Failed to enable Backup]. *)
Definition activity_response (commcell_object : Commcell) (failure : string)
  (fr : bool * Response) : M World unit :=
  let flag := fst fr in
  let response := snd fr in
  if flag then
    body <- liftR (json response);;
    has <- (if py_truthy body then liftR (py_contains "response" body) else ret false);;
    if has then
      resp <- liftR (py_getitem body "response");;
      first <- liftR (py_getitem_0 resp);;
      error_code <- liftR (py_getitem first "errorCode");;
      if py_eq_0 error_code then ret tt
      else
        has_message <- liftR (py_contains "errorMessage" first);;
        if has_message then
          error_message <- liftR (py_getitem first "errorMessage");;
          let o_str :=
            failure +:+ newline +:+ "Error: " +:+ dquote +:+ py_str error_message +:+ dquote in
          raise (SDKException "Client" "102" (Some o_str))
        else ret tt
    else raise (SDKException "Response" "102" None)
  else
    let response_string := _update_response_ commcell_object (text response) in
    raise (SDKException "Response" "101" (Some response_string)).

(** Build the document, post it to [self._CLIENT], read the reply. *)
Definition submit (self : Client) (opt : string) (enable enable_time : pyval)
  (failure : string) : M World unit :=
  request_json <- liftR (_request_json_ self opt enable enable_time);;
  fr <- request (_commcell_object self)
          {| method := "POST"; url := _CLIENT self; payload := Some request_json |};;
  activity_response (_commcell_object self) failure fr.

Definition time_format : string := "%Y-%m-%d %H:%M:%S".

(** The [try] block of the three [enable_..._at_time] operations. *)
Definition check_enable_time (enable_time : pyval) : M World unit :=
  try_except_ValueError
    (time_tuple <- (match enable_time with
                    | PyStr s =>
                        match time_strptime s time_format with
                        | Some t => ret t
                        | None => raise ValueError
                        end
                    | _ => raise TypeError
                    end);;
     seconds <- liftR (time_mktime time_tuple);;
     now <- time_time;;
     if PrimFloat.ltb seconds now then raise (SDKException "Client" "103" None)
     else ret tt)
    (raise (SDKException "Client" "104" None)).

Definition enable_backup (self : Client) : M World unit :=
  submit self "Backup" (PyBool true) PyNone "Failed to enable Backup".

Definition enable_backup_at_time (self : Client) (enable_time : pyval) : M World unit :=
  _ <- check_enable_time enable_time;;
  submit self "Backup" (PyBool false) enable_time "Failed to enable Backup".

Definition disable_backup (self : Client) : M World unit :=
  submit self "Backup" (PyBool false) PyNone "Failed to disable Backup".

Definition enable_restore (self : Client) : M World unit :=
  submit self "Restore" (PyBool true) PyNone "Failed to enable Restore".

Definition enable_restore_at_time (self : Client) (enable_time : pyval) : M World unit :=
  _ <- check_enable_time enable_time;;
  submit self "Restore" (PyBool false) enable_time "Failed to enable Restore".

Definition disable_restore (self : Client) : M World unit :=
  submit self "Restore" (PyBool false) PyNone "Failed to disable Restore".

Definition enable_data_aging (self : Client) : M World unit :=
  submit self "Data Aging" (PyBool true) PyNone "Failed to enable Data Aging".

Definition enable_data_aging_at_time (self : Client) (enable_time : pyval) : M World unit :=
  _ <- check_enable_time enable_time;;
  submit self "Data Aging" (PyBool false) enable_time "Failed to enable Data Aging".

Definition disable_data_aging (self : Client) : M World unit :=
  submit self "Data Aging" (PyBool false) PyNone "Failed to disable Data Aging".

(** The three activities and the nine operations, to state a property of
    all of them at once. *)
Inductive activity : Type := Backup | Restore | DataAging.

Inductive activity_op : Type :=
| Enable (a : activity)
| EnableAtTime (a : activity) (enable_time : pyval)
| Disable (a : activity).

Definition activity_name (a : activity) : string :=
  match a with
  | Backup => "Backup"
  | Restore => "Restore"
  | DataAging => "Data Aging"
  end.

Definition activity_code (a : activity) : Z :=
  match a with
  | Backup => 1
  | Restore => 2
  | DataAging => 16
  end.

(** What the operation does, as its failure message names it. *)
Definition operation_name (op : activity_op) : string :=
  match op with
  | Enable a | EnableAtTime a _ => "enable " +:+ activity_name a
  | Disable a => "disable " +:+ activity_name a
  end.

Definition call (self : Client) (op : activity_op) : M World unit :=
  match op with
  | Enable Backup => enable_backup self
  | EnableAtTime Backup t => enable_backup_at_time self t
  | Disable Backup => disable_backup self
  | Enable Restore => enable_restore self
  | EnableAtTime Restore t => enable_restore_at_time self t
  | Disable Restore => disable_restore self
  | Enable DataAging => enable_data_aging self
  | EnableAtTime DataAging t => enable_data_aging_at_time self t
  | Disable DataAging => disable_data_aging self
  end.

(** *** Clients.delete, which assigns [self._clients] *)

Record Session : Type := {
  registry : Clients;
  world : World
}.

Definition in_world {A : Type} (m : M World A) : M Session A :=
  fun s =>
    let r := m (world s) in
    (fst r, {| registry := registry s; world := snd r |}).

(** [self._clients = d] *)
Definition set_clients (d : gmap string string) : M Session unit :=
  fun s =>
    (Return tt,
     {| registry := {| clients_commcell_object := clients_commcell_object (registry s);
                       _CLIENTS := _CLIENTS (registry s);
                       _clients := d |};
        world := world s |}).

Definition append_message (o_str label : string) (message : pyval) : string :=
  if py_truthy message then
    o_str +:+ newline +:+ label +:+ ": " +:+ dquote +:+ py_str message +:+ dquote
  else o_str.

(** [Clients.delete] *)
Definition delete (client_name : pyval) : M Session unit :=
  fun s =>
  let self := registry s in
  let commcell_object := clients_commcell_object self in
  (if negb (isinstance_str client_name) then
     raise (SDKException "Client" "101" None)
   else
     let client_name := lower (py_str client_name) in
     found <- liftR (has_client self (PyStr client_name));;
     if has_client_truthy found then
       client_id <- liftR (match _clients self !! client_name with
                           | Some id => Return id
                           | None => Raise (KeyError (PyStr client_name))
                           end);;
       let client_delete_service := CLIENT commcell_object client_id +:+ "?forceDelete=1" in
       fr <- in_world (request commcell_object
               {| method := "DELETE"; url := client_delete_service; payload := None |});;
       let flag := fst fr in
       let response := snd fr in
       if flag then
         body <- liftR (json response);;
         if py_truthy body then
           has <- liftR (py_contains "response" body);;
           if has then
             resp <- liftR (py_getitem body "response");;
             first <- liftR (py_getitem_0 resp);;
             code <- liftR (py_getitem first "errorCode");;
             if py_eq_0 code then
               d <- in_world (_get_clients commcell_object (_CLIENTS self));;
               set_clients d
             else ret tt
           else
             has_error <- liftR (py_contains "errorCode" body);;
             error_code <- (if has_error then liftR (py_getitem body "errorCode")
                            else ret (PyInt 0));;
             has_warning <- liftR (py_contains "warningCode" body);;
             warning_code <- (if has_warning then liftR (py_getitem body "warningCode")
                              else ret (PyInt 0));;
             let o_str := "Failed to delete client" in
             o_str <- (if negb (py_eq_0 error_code) then
                         error_message <- liftR (py_getitem body "errorMessage");;
                         ret (append_message o_str "Error" error_message)
                       else if negb (py_eq_0 warning_code) then
                         warning_message <- liftR (py_getitem body "warningMessage");;
                         ret (append_message o_str "Warning" warning_message)
                       else ret o_str);;
             raise (SDKException "Client" "102" (Some o_str))
         else raise (SDKException "Response" "102" None)
       else
         let response_string := _update_response_ commcell_object (text response) in
         raise (SDKException "Client" "102"
                  (Some ("Failed to delete the client" +:+ newline +:+ "Error: "
                         +:+ dquote +:+ response_string +:+ dquote)))
     else
       raise (SDKException "Client" "102"
                (Some ("No client exists with name: " +:+ client_name)))) s.

(** The mutating operations of the module. *)
Inductive operation : Type :=
| OpDelete (client_name : pyval)
| OpActivity (c : Client) (op : activity_op).

Definition run (o : operation) : M Session unit :=
  match o with
  | OpDelete client_name => delete client_name
  | OpActivity c op => in_world (call c op)
  end.

End ClientModule.

(** ** Vocabulary of the statements *)

(** [dictionary['client']['clientEntity'][field]] *)
Definition entry_field (dictionary : pyval) (field : string) : result pyval :=
  client <-? py_getitem dictionary "client";;
  entity <-? py_getitem client "clientEntity";;
  py_getitem entity field.

(** Every key of the mapping is its own lowercased form. *)
Definition lowercase_keys (d : gmap string string) : Prop :=
  forall (k v : string), d !! k = Some v -> lower k = k.

(** The decoded body is an object whose [response] array has the object
    [first] as element 0, and [first] has [code] under [errorCode]. *)
Definition response_error_code (body first code : pyval) : Prop :=
  exists entries rest fields,
    body = PyDict entries
    /\ dict_get entries "response" = Some (PyList (PyDict fields :: rest))
    /\ first = PyDict fields
    /\ dict_get fields "errorCode" = Some code.

(** [first[key]] is present and is [value]. *)
Definition has_field (first : pyval) (key : string) (value : pyval) : Prop :=
  exists fields, first = PyDict fields /\ dict_get fields key = Some value.

(** [first] has no [key]. *)
Definition lacks_field (first : pyval) (key : string) : Prop :=
  exists fields, first = PyDict fields /\ dict_get fields key = None.

(** The option records of a request document:
    [doc['clientProperties']['clientProps']['clientActivityControl']['activityControlOptions']] *)
Definition option_records (doc : pyval) : result pyval :=
  a <-? py_getitem doc "clientProperties";;
  b <-? py_getitem a "clientProps";;
  c <-? py_getitem b "clientActivityControl";;
  py_getitem c "activityControlOptions".

(** The request that [Clients.delete] sends for the identifier [id]. *)
Definition delete_request (commcell_object : Commcell) (id : string) : Request :=
  {| method := "DELETE";
     url := CLIENT commcell_object id +:+ "?forceDelete=1";
     payload := None |}.

Section Vocabulary.

Context {ext : Externals} {wrappers : Wrappers}.

(** The request that an activity operation of [self] sends. *)
Definition post_request (self : Client) (request_json : pyval) : Request :=
  {| method := "POST"; url := _CLIENT self; payload := Some request_json |}.

(** The world after one more request. *)
Definition after_request (w : World) (r : Request) : World :=
  {| sent := sent w ++ [r]; clock := clock w |}.


(** The time of an [enable_..._at_time] operation passes its validation;
    the other operations have none. *)
Definition validated (op : activity_op) (w : World) : Prop :=
  match op with
  | EnableAtTime _ enable_time => check_enable_time enable_time w = (Return tt, w)
  | _ => True
  end.

(** The constructor after the identifier [id] is settled. *)
Definition construct_with_id (commcell_object : Commcell) (name id : string)
  : M World Client :=
  let CLIENT_url := CLIENT commcell_object id in
  rs <- _get_client_properties commcell_object CLIENT_url;;
  let snap := snd rs in
  let self :=
    {| _commcell_object := commcell_object;
       _client_name := name;
       _client_id := id;
       _CLIENT := CLIENT_url;
       properties := fst rs;
       _os_info := snap_os_info snap;
       _data_recovery := snap_data_recovery snap;
       _data_management := snap_data_management snap;
       _online_content_index := snap_online_content_index snap;
       _backup := fst (fst (snap_flags snap));
       _restore := snd (fst (snap_flags snap));
       _data_aging := snd (snap_flags snap);
       agents := None;
       schedules := None |} in
  a <- Agents self;;
  let self :=
    {| _commcell_object := commcell_object;
       _client_name := name;
       _client_id := id;
       _CLIENT := CLIENT_url;
       properties := fst rs;
       _os_info := snap_os_info snap;
       _data_recovery := snap_data_recovery snap;
       _data_management := snap_data_management snap;
       _online_content_index := snap_online_content_index snap;
       _backup := fst (fst (snap_flags snap));
       _restore := snd (fst (snap_flags snap));
       _data_aging := snd (snap_flags snap);
       agents := Some a;
       schedules := None |} in
  s <- Schedules self;;
  ret {| _commcell_object := commcell_object;
         _client_name := name;
         _client_id := id;
         _CLIENT := CLIENT_url;
         properties := fst rs;
         _os_info := snap_os_info snap;
         _data_recovery := snap_data_recovery snap;
         _data_management := snap_data_management snap;
         _online_content_index := snap_online_content_index snap;
         _backup := fst (fst (snap_flags snap));
         _restore := snd (fst (snap_flags snap));
         _data_aging := snd (snap_flags snap);
         agents := Some a;
         schedules := Some s |}.

End Vocabulary.

(** The request of a read: [make_request('GET', url)]. *)
Definition get_request (target : string) : Request :=
  {| method := "GET"; url := target; payload := None |}.

(** The activities that a property document lists:
    [body['clientProperties'][0]['clientProps']['clientActivityControl']['activityControlOptions']],
    as the loop of [_get_client_properties] visits them. *)
Definition listed_activities (body : pyval) : result (list pyval) :=
  all <-? py_getitem body "clientProperties";;
  client_properties <-? py_getitem_0 all;;
  client_props <-? py_getitem client_properties "clientProps";;
  cac <-? py_getitem client_props "clientActivityControl";;
  activities <-? py_getitem cac "activityControlOptions";;
  py_iter activities.

(** A switch of a property document:
    [body['clientProperties'][0]['clientProps']['activityControl'][key]]. *)
Definition activity_control (body : pyval) (key : string) : result pyval :=
  all <-? py_getitem body "clientProperties";;
  client_properties <-? py_getitem_0 all;;
  client_props <-? py_getitem client_properties "clientProps";;
  control <-? py_getitem client_props "activityControl";;
  py_getitem control key.

(** The client that a request document names:
    [doc['association']['entity'][0]['clientName']]. *)
Definition association_name (doc : pyval) : result pyval :=
  a <-? py_getitem doc "association";;
  entity <-? py_getitem a "entity";;
  first <-? py_getitem_0 entity;;
  py_getitem first "clientName".

(** Text of ASCII characters only. *)
Fixpoint is_ascii (s : string) : bool :=
  match s with
  | EmptyString => true
  | String c rest => N.ltb (N_of_ascii c) 128 && is_ascii rest
  end.

(** The sharp s, as its two bytes in UTF-8. *)
Definition sharp_s : string :=
  String (ascii_of_N 195) (String (ascii_of_N 159) EmptyString).

(** [str.upper] of Python 3 on UTF-8 text made of ASCII characters and of
    the sharp s, whose uppercase is the two letters SS; [None] on any
    other text, which this definition does not cover.  On such text
    [str.lower] is [lower]: the sharp s is its own lowercase. *)
Fixpoint unicode_upper (s : string) : option string :=
  match s with
  | EmptyString => Some EmptyString
  | String c rest =>
      if N.ltb (N_of_ascii c) 128 then
        option_map (String (ascii_upper c)) (unicode_upper rest)
      else
        match rest with
        | String c' rest' =>
            if (N.eqb (N_of_ascii c) 195 && N.eqb (N_of_ascii c') 159)%bool then
              option_map (String.append "SS") (unicode_upper rest')
            else None
        | EmptyString => None
        end
  end.

Section Documents.

Context {ext : Externals}.

(** The document that an activity operation builds: the call of
    [_request_json_] in its body. *)
Definition operation_document (self : Client) (op : activity_op) : result pyval :=
  match op with
  | Enable a => _request_json_ self (activity_name a) (PyBool true) PyNone
  | EnableAtTime a enable_time =>
      _request_json_ self (activity_name a) (PyBool false) enable_time
  | Disable a => _request_json_ self (activity_name a) (PyBool false) PyNone
  end.

End Documents.

(** ** A concrete setting

    A host whose time zone is UTC and whose [time.strptime] is tried on
    zero-padded input only, sub-resource wrappers that are built without a
    request, and a server with one client.  The settings serve to run the
    operations on concrete input. *)

Record utc_tuple : Type := {
  tm_year : Z;
  tm_mon : Z;
  tm_mday : Z;
  tm_hour : Z;
  tm_min : Z;
  tm_sec : Z
}.

Definition digit_of (c : ascii) : option Z :=
  let n := Z.of_N (N_of_ascii c) in
  if (Z.leb 48 n && Z.leb n 57)%bool then Some (n - 48) else None.

Fixpoint read_digits (k : nat) (s : string) (acc : Z) : option (Z * string) :=
  match k with
  | O => Some (acc, s)
  | S k' =>
      match s with
      | String c rest =>
          match digit_of c with
          | Some d => read_digits k' rest (acc * 10 + d)
          | None => None
          end
      | EmptyString => None
      end
  end.

Definition read_char (c : ascii) (s : string) : option string :=
  match s with
  | String c' rest => if Ascii.eqb c c' then Some rest else None
  | EmptyString => None
  end.

Definition is_leap (y : Z) : bool :=
  (Z.eqb (y mod 4) 0 && negb (Z.eqb (y mod 100) 0) || Z.eqb (y mod 400) 0)%bool.

Definition days_in_month (y m : Z) : Z :=
  if Z.eqb m 2 then (if is_leap y then 29 else 28)
  else if (Z.eqb m 4 || Z.eqb m 6 || Z.eqb m 9 || Z.eqb m 11)%bool then 30
  else 31.

Definition between (lo x hi : Z) : bool := (Z.leb lo x && Z.leb x hi)%bool.

Definition utc_strptime (s fmt : string) : option utc_tuple :=
  if negb (String.eqb fmt "%Y-%m-%d %H:%M:%S") then None else
  match read_digits 4 s 0 with
  | Some (y, s1) =>
    match read_char "-" s1 with
    | Some s2 =>
      match read_digits 2 s2 0 with
      | Some (mo, s3) =>
        match read_char "-" s3 with
        | Some s4 =>
          match read_digits 2 s4 0 with
          | Some (d, s5) =>
            match read_char " " s5 with
            | Some s6 =>
              match read_digits 2 s6 0 with
              | Some (h, s7) =>
                match read_char ":" s7 with
                | Some s8 =>
                  match read_digits 2 s8 0 with
                  | Some (mi, s9) =>
                    match read_char ":" s9 with
                    | Some s10 =>
                      match read_digits 2 s10 0 with
                      | Some (se, EmptyString) =>
                          if (between 1 mo 12 && between 1 d (days_in_month y mo)
                              && between 0 h 23 && between 0 mi 59 && between 0 se 61)%bool
                          then Some {| tm_year := y; tm_mon := mo; tm_mday := d;
                                       tm_hour := h; tm_min := mi; tm_sec := se |}
                          else None
                      | _ => None
                      end
                    | None => None
                    end
                  | None => None
                  end
                | None => None
                end
              | None => None
              end
            | None => None
            end
          | None => None
          end
        | None => None
        end
      | None => None
      end
    | None => None
    end
  | None => None
  end.

(** Days from 1970-01-01 to the given civil date. *)
Definition days_from_civil (y m d : Z) : Z :=
  let y' := if Z.leb m 2 then y - 1 else y in
  let era := y' / 400 in
  let yoe := y' - era * 400 in
  let mp := (m + 9) mod 12 in
  let doy := (153 * mp + 2) / 5 + d - 1 in
  let doe := yoe * 365 + yoe / 4 - yoe / 100 + doy in
  era * 146097 + doe - 719468.

Fixpoint pos_to_float (p : positive) : float :=
  match p with
  | xH => 1%float
  | xO q => (2 * pos_to_float q)%float
  | xI q => (2 * pos_to_float q + 1)%float
  end.

Definition Z_to_float (z : Z) : float :=
  match z with
  | Z0 => 0%float
  | Zpos p => pos_to_float p
  | Zneg p => (- pos_to_float p)%float
  end.

Definition utc_mktime (t : utc_tuple) : result float :=
  Return (Z_to_float
            (days_from_civil (tm_year t) (tm_mon t) (tm_mday t) * 86400
             + tm_hour t * 3600 + tm_min t * 60 + tm_sec t)).

Definition utc_host : Externals := {|
  py_repr := fun _ => "...";
  struct_time := utc_tuple;
  time_strptime := utc_strptime;
  time_mktime := utc_mktime;
  AgentsT := unit;
  SchedulesT := unit
|}.

Definition plain_wrappers : @Wrappers utc_host :=
  @Build_Wrappers utc_host (fun _ w => (Return tt, w)) (fun _ w => (Return tt, w)).

Definition reply (flag : bool) (body : pyval) : bool * Response :=
  (flag, {| json := Return body; text := "server text" |}).

(** The listing of a server whose one client is [clientA], of identifier 5. *)
Definition listing_body : pyval :=
  PyDict [("clientProperties",
    PyList [PyDict [("client",
      PyDict [("clientEntity",
        PyDict [("clientName", PyStr "clientA"); ("clientId", PyInt 5)])])]])].

Definition properties_body : pyval :=
  PyDict [("clientProperties",
    PyList [PyDict [
      ("client",
        PyDict [("osInfo",
          PyDict [("OsDisplayInfo",
                    PyDict [("ProcessorType", PyStr "x64"); ("OSName", PyStr "Linux")]);
                  ("Type", PyStr "Unix");
                  ("SubType", PyStr "Linux")])]);
      ("clientProps",
        PyDict [("activityControl",
                  PyDict [("EnableDataRecovery", PyBool true);
                          ("EnableDataManagement", PyBool true);
                          ("EnableOnlineContentIndex", PyBool false)]);
                ("clientActivityControl",
                  PyDict [("activityControlOptions",
                    PyList [PyDict [("activityType", PyInt 1);
                                    ("enableActivityType", PyBool true)];
                            PyDict [("activityType", PyInt 2);
                                    ("enableActivityType", PyBool false)]])])])]])].

(** A server that answers a POST with [post_reply] and a DELETE with
    [delete_reply]. *)
Definition server (post_reply delete_reply : bool * Response) : Commcell := {|
  make_request := fun _ r =>
    if String.eqb (method r) "POST" then post_reply
    else if String.eqb (method r) "DELETE" then delete_reply
    else if String.eqb (url r) "/Client" then reply true listing_body
    else reply true properties_body;
  GET_ALL_CLIENTS := "/Client";
  CLIENT := fun id => "/Client/" +:+ id;
  _update_response_ := fun s => s
|}.

Definition error_body (code : Z) : pyval :=
  PyDict [("response", PyList [PyDict [("errorCode", PyInt code)]])].

Definition denied_body : pyval :=
  PyDict [("response",
    PyList [PyDict [("errorCode", PyInt 5); ("errorMessage", PyStr "denied")]])].

Definition ok_reply : bool * Response := reply true (error_body 0).

(** The first of January 2030, midnight: 1893456000 seconds. *)
Definition new_year_2030 : string := "2030-01-01 00:00:00".

Definition world_at (now : float) : World := {| sent := []; clock := now |}.

Definition registry_of (commcell_object : Commcell) : Clients := {|
  clients_commcell_object := commcell_object;
  _CLIENTS := "/Client";
  _clients := {[ "clienta" := "5" ]}
|}.

Definition client_of (commcell_object : Commcell) : @Client utc_host := {|
  _commcell_object := commcell_object;
  _client_name := "clienta";
  _client_id := "5";
  _CLIENT := "/Client/5";
  properties := PyNone;
  _os_info := "x64 Unix Linux  --  Linux";
  _data_recovery := "Enabled";
  _data_management := "Enabled";
  _online_content_index := "Disabled";
  _backup := Some "Enabled";
  _restore := Some "Disabled";
  _data_aging := None;
  agents := (Some tt : option (@AgentsT utc_host));
  schedules := (Some tt : option (@SchedulesT utc_host))
|}.

Definition session_of (commcell_object : Commcell) : Session :=
  {| registry := registry_of commcell_object; world := world_at 0 |}.

(** Servers that differ in what they answer to a POST and to a DELETE. *)
Definition quiet_server : Commcell := server ok_reply ok_reply.
Definition denying_server : Commcell :=
  server (reply true denied_body) (reply true denied_body).
Definition terse_server : Commcell :=
  server (reply true (error_body 5)) (reply true (error_body 5)).
Definition empty_server : Commcell :=
  server (reply true (PyDict [])) (reply true (PyDict [])).
Definition failing_server : Commcell :=
  server (reply false PyNone) (reply false PyNone).

(** A server whose listing may depend on the requests sent before. *)
Definition scripted_server (listing : list Request -> bool * Response)
  (properties_reply post_reply delete_reply : bool * Response) : Commcell := {|
  make_request := fun history r =>
    if String.eqb (method r) "POST" then post_reply
    else if String.eqb (method r) "DELETE" then delete_reply
    else if String.eqb (url r) "/Client" then listing history
    else properties_reply;
  GET_ALL_CLIENTS := "/Client";
  CLIENT := fun id => "/Client/" +:+ id;
  _update_response_ := fun s => s
|}.

Definition deleted_before (history : list Request) : bool :=
  existsb (fun r => String.eqb (method r) "DELETE") history.

Definition listing_of (entries : list pyval) : pyval :=
  PyDict [("clientProperties", PyList entries)].

Definition listed_client (name : string) (id : pyval) : pyval :=
  PyDict [("client",
    PyDict [("clientEntity", PyDict [("clientName", PyStr name); ("clientId", id)])])].

(** A server that no longer lists its client once a DELETE was sent. *)
Definition forgetful_server : Commcell :=
  scripted_server
    (fun history =>
       if deleted_before history then reply true (listing_of [])
       else reply true listing_body)
    (reply true properties_body) ok_reply ok_reply.

(** A server whose listing fails once a DELETE was sent. *)
Definition vanishing_server : Commcell :=
  scripted_server
    (fun history =>
       if deleted_before history then reply false PyNone
       else reply true listing_body)
    (reply true properties_body) ok_reply ok_reply.

(** A server that lists one name twice, in two letter cases. *)
Definition twin_server : Commcell :=
  scripted_server
    (fun _ => reply true (listing_of [listed_client "ClientA" (PyInt 5);
                                      listed_client "CLIENTA" (PyInt 7)]))
    (reply true properties_body) ok_reply ok_reply.

(** A server that lists its client with the empty string as identifier. *)
Definition blank_server : Commcell :=
  scripted_server
    (fun _ => reply true (listing_of [listed_client "ClientA" (PyStr EmptyString)]))
    (reply true properties_body) ok_reply ok_reply.

(** A server whose property documents hold an empty array. *)
Definition hollow_server : Commcell :=
  scripted_server (fun _ => reply true listing_body)
    (reply true (listing_of [])) ok_reply ok_reply.

(** A host on which [time.mktime] refuses the years before 1970. *)
Definition epoch_host : Externals := {|
  py_repr := fun _ => "...";
  struct_time := utc_tuple;
  time_strptime := utc_strptime;
  time_mktime := fun t => if Z.ltb (tm_year t) 1970 then Raise OverflowError
                          else utc_mktime t;
  AgentsT := unit;
  SchedulesT := unit
|}.

Definition epoch_client : @Client epoch_host := {|
  _commcell_object := quiet_server;
  _client_name := "clienta";
  _client_id := "5";
  _CLIENT := "/Client/5";
  properties := PyNone;
  _os_info := "x64 Unix Linux  --  Linux";
  _data_recovery := "Enabled";
  _data_management := "Enabled";
  _online_content_index := "Disabled";
  _backup := Some "Enabled";
  _restore := Some "Disabled";
  _data_aging := None;
  agents := (Some tt : option (@AgentsT epoch_host));
  schedules := (Some tt : option (@SchedulesT epoch_host))
|}.

(** A server that reads what is posted: it denies a document whose option
    record disables the activity, and accepts any other. *)
Definition disables (r : Request) : bool :=
  match payload r with
  | Some doc =>
      match option_records doc with
      | Return (PyList [PyDict fields]) =>
          match dict_get fields "enableActivityType" with
          | Some (PyBool false) => true
          | _ => false
          end
      | _ => false
      end
  | None => false
  end.

Definition picky_server : Commcell := {|
  make_request := fun _ r =>
    if String.eqb (method r) "POST" then
      (if disables r then reply true denied_body else ok_reply)
    else if String.eqb (method r) "DELETE" then ok_reply
    else if String.eqb (url r) "/Client" then reply true listing_body
    else reply true properties_body;
  GET_ALL_CLIENTS := "/Client";
  CLIENT := fun id => "/Client/" +:+ id;
  _update_response_ := fun s => s
|}.


(** A server that lists one client, whose name is the sharp s. *)
Definition sharp_server : Commcell :=
  scripted_server (fun _ => reply true (listing_of [listed_client sharp_s (PyInt 9)]))
    (reply true properties_body) ok_reply ok_reply.

Definition sharp_registry : Clients := {|
  clients_commcell_object := sharp_server;
  _CLIENTS := "/Client";
  _clients := {[ sharp_s := "9" ]}
|}.

(** * Properties *)

(** ** Case mapping *)

Lemma ascii_lower_upper (c : ascii) : ascii_lower (ascii_upper c) = ascii_lower c.
Proof. destruct c as [[] [] [] [] [] [] [] []]; reflexivity. Qed.

Lemma ascii_lower_idem (c : ascii) : ascii_lower (ascii_lower c) = ascii_lower c.
Proof. destruct c as [[] [] [] [] [] [] [] []]; reflexivity. Qed.

Lemma lower_upper (s : string) : lower (upper s) = lower s.
Proof.
  induction s as [|c s IH]; simpl.
  - reflexivity.
  - rewrite ascii_lower_upper, IH. reflexivity.
Qed.

Lemma lower_idem (s : string) : lower (lower s) = lower s.
Proof.
  induction s as [|c s IH]; simpl.
  - reflexivity.
  - rewrite ascii_lower_idem, IH. reflexivity.
Qed.

(** ** Running a computation *)

Lemma bind_Return {S A B : Type} (m : M S A) (k : A -> M S B) (s s' : S) (b : B) :
  bind m k s = (Return b, s') ->
  exists a s1, m s = (Return a, s1) /\ k a s1 = (Return b, s').
Proof.
  unfold bind. destruct (m s) as [[a|e] s1]; intros H.
  - exists a, s1. split; [reflexivity | exact H].
  - discriminate H.
Qed.

Lemma rbind_Return {A B : Type} (r : result A) (k : A -> result B) (b : B) :
  rbind r k = Return b -> exists a, r = Return a /\ k a = Return b.
Proof.
  destruct r as [a|e]; simpl; intros H.
  - exists a. split; [reflexivity | exact H].
  - discriminate H.
Qed.

Section Properties.

Context {ext : Externals} {wrappers : Wrappers}.

(** ** The cached mapping *)

Lemma entry_fields (dictionary name id : pyval) (client entity : pyval) :
  py_getitem dictionary "client" = Return client ->
  py_getitem client "clientEntity" = Return entity ->
  py_getitem entity "clientName" = Return name ->
  py_getitem entity "clientId" = Return id ->
  entry_field dictionary "clientName" = Return name
  /\ entry_field dictionary "clientId" = Return id.
Proof.
  intros H1 H2 H3 H4. unfold entry_field. rewrite H1. simpl. rewrite H2. simpl.
  split; assumption.
Qed.

Lemma _get_clients_loop_spec (entries : list pyval) :
  forall d0 d : gmap string string,
    _get_clients_loop entries d0 = Return d ->
    (forall k v, d !! k = Some v ->
       d0 !! k = Some v
       \/ exists dictionary name id,
            In dictionary entries
            /\ entry_field dictionary "clientName" = Return name
            /\ entry_field dictionary "clientId" = Return id
            /\ k = lower (py_str name) /\ v = lower (py_str id))
    /\ (forall k, is_Some (d0 !! k) -> is_Some (d !! k))
    /\ (forall dictionary, In dictionary entries ->
          exists name id,
            entry_field dictionary "clientName" = Return name
            /\ entry_field dictionary "clientId" = Return id
            /\ is_Some (d !! lower (py_str name))).
Proof.
  induction entries as [|dictionary rest IH]; intros d0 d H.
  - simpl in H. inversion H; subst. repeat split.
    + intros k v Hk. left. exact Hk.
    + intros k Hk. exact Hk.
    + intros x [].
  - simpl in H.
    apply rbind_Return in H. destruct H as (client & E1 & H).
    apply rbind_Return in H. destruct H as (entity & E2 & H).
    apply rbind_Return in H. destruct H as (name & E3 & H).
    rewrite E1 in H. simpl in H. rewrite E2 in H. simpl in H.
    apply rbind_Return in H. destruct H as (id & E4 & H).
    destruct (entry_fields dictionary name id client entity E1 E2 E3 E4) as [Fn Fi].
    destruct (IH _ _ H) as (IH1 & IH2 & IH3).
    repeat split.
    + intros k v Hk. destruct (IH1 k v Hk) as [Hin | (x & n' & i' & Hx & Hn & Hi & Hkv)].
      * destruct (decide (lower (py_str name) = k)) as [<- | Hne].
        -- rewrite lookup_insert_eq in Hin. inversion Hin; subst.
           right. exists dictionary, name, id. simpl. auto 10.
        -- rewrite lookup_insert_ne in Hin by exact Hne. left. exact Hin.
      * right. exists x, n', i'. simpl. auto 10.
    + intros k Hk. apply IH2.
      destruct (decide (lower (py_str name) = k)) as [<- | Hne].
      * rewrite lookup_insert_eq. eauto.
      * rewrite lookup_insert_ne by exact Hne. exact Hk.
    + intros x [<- | Hx].
      * exists name, id. repeat split; try assumption.
        apply IH2. rewrite lookup_insert_eq. eauto.
      * apply IH3. exact Hx.
Qed.

Lemma _get_clients_loop_lowercase (entries : list pyval) (d : gmap string string) :
  _get_clients_loop entries ∅ = Return d -> lowercase_keys d.
Proof.
  intros H k v Hk.
  destruct (_get_clients_loop_spec entries ∅ d H) as (H1 & _ & _).
  destruct (H1 k v Hk) as [Hin | (x & n & i & _ & _ & _ & -> & _)].
  - rewrite lookup_empty in Hin. discriminate Hin.
  - apply lower_idem.
Qed.

(** What a listing that returns has read. *)
Lemma _get_clients_Return (commcell_object : Commcell) (CLIENTS : string) (w w' : World)
  (d : gmap string string) :
  _get_clients commcell_object CLIENTS w = (Return d, w') ->
  exists resp body listed entries,
    make_request commcell_object (sent w)
      {| method := "GET"; url := CLIENTS; payload := None |} = (true, resp)
    /\ json resp = Return body
    /\ py_getitem body "clientProperties" = Return listed
    /\ py_iter listed = Return entries
    /\ _get_clients_loop entries ∅ = Return d.
Proof.
  unfold _get_clients, bind, request, liftR, ret, raise. simpl.
  destruct (make_request commcell_object (sent w) _) as [flag resp] eqn:Hreq. simpl.
  destruct flag; [|discriminate].
  destruct (json resp) as [body|e] eqn:Hjson; [|discriminate].
  destruct (py_truthy body); [|discriminate].
  destruct (py_contains "clientProperties" body) as [[|]|e]; try discriminate.
  destruct (py_getitem body "clientProperties") as [listed|e] eqn:Hlisted; [|discriminate].
  destruct (py_iter listed) as [entries|e] eqn:Hiter; [|discriminate].
  intros H. exists resp, body, listed, entries.
  repeat split; try reflexivity; try assumption.
  inversion H. reflexivity.
Qed.

Lemma py_getitem_Return (v x : pyval) (k : string) :
  py_getitem v k = Return x -> has_field v k x.
Proof.
  destruct v; simpl; try discriminate.
  destruct (dict_get entries k) as [y|] eqn:E; [|discriminate].
  intros H. inversion H; subst. exists entries. split; [reflexivity | exact E].
Qed.

Lemma has_field_getitem (v x : pyval) (k : string) :
  has_field v k x -> py_getitem v k = Return x.
Proof. intros (fields & -> & E). simpl. rewrite E. reflexivity. Qed.

Lemma has_field_contains (v x : pyval) (k : string) :
  has_field v k x -> py_contains k v = Return true.
Proof. intros (fields & -> & E). simpl. rewrite E. reflexivity. Qed.

Lemma lacks_field_contains (v : pyval) (k : string) :
  lacks_field v k -> py_contains k v = Return false.
Proof. intros (fields & -> & E). simpl. rewrite E. reflexivity. Qed.

Lemma response_error_code_intro (body resp first code : pyval) :
  py_getitem body "response" = Return resp ->
  py_getitem_0 resp = Return first ->
  py_getitem first "errorCode" = Return code ->
  response_error_code body first code.
Proof.
  intros H1 H2 H3.
  apply py_getitem_Return in H1. destruct H1 as (entries & -> & E1).
  apply py_getitem_Return in H3. destruct H3 as (fields & -> & E3).
  destruct resp as [ | | | | s | items | ]; simpl in H2; try discriminate.
  - destruct s; discriminate.
  - destruct items as [|x rest]; [discriminate|]. inversion H2; subst.
    exists entries, rest, fields. auto.
Qed.

Lemma response_error_code_elim (body first code : pyval) :
  response_error_code body first code ->
  py_truthy body = true
  /\ py_contains "response" body = Return true
  /\ exists resp,
       py_getitem body "response" = Return resp
       /\ py_getitem_0 resp = Return first
       /\ py_getitem first "errorCode" = Return code.
Proof.
  intros (entries & rest & fields & -> & E1 & -> & E2).
  repeat split.
  - destruct entries; [discriminate E1 | reflexivity].
  - simpl. rewrite E1. reflexivity.
  - exists (PyList (PyDict fields :: rest)). simpl. rewrite E1, E2. auto.
Qed.

(** ** Clients.delete *)

(** A call of [delete] leaves the registry as it is, or it returns after
    the server answered [errorCode == 0] and the listing was read again. *)
Lemma delete_cases (n : pyval) (s s' : Session) (r : result unit) :
  delete n s = (r, s') ->
  registry s' = registry s
  \/ (r = Return tt
      /\ exists id resp body first code d w1,
           _clients (registry s) !! lower (py_str n) = Some id
           /\ make_request (clients_commcell_object (registry s)) (sent (world s))
                (delete_request (clients_commcell_object (registry s)) id) = (true, resp)
           /\ json resp = Return body
           /\ response_error_code body first code
           /\ py_eq_0 code = true
           /\ _get_clients (clients_commcell_object (registry s)) (_CLIENTS (registry s))
                {| sent := sent (world s)
                           ++ [delete_request (clients_commcell_object (registry s)) id];
                   clock := clock (world s) |} = (Return d, w1)
           /\ registry s' = {| clients_commcell_object := clients_commcell_object (registry s);
                               _CLIENTS := _CLIENTS (registry s);
                               _clients := d |}).
Proof.
  unfold delete. destruct n as [ | | | | n | | ]; simpl;
    try (intros H; left; inversion H; reflexivity).
  unfold bind at 1. unfold liftR at 1. unfold has_client. simpl.
  rewrite lower_idem.
  destruct (bool_decide (_clients (registry s) = ∅)) eqn:Hempty; simpl.
  { rewrite Hempty. simpl. intros H; left; inversion H; reflexivity. }
  destruct (_clients (registry s) !! lower n) as [id|] eqn:Hid; simpl.
  2:{ intros H; left; inversion H; reflexivity. }
  unfold bind, liftR, in_world, request, raise, ret, set_clients. simpl.
  fold (delete_request (clients_commcell_object (registry s)) id).
  destruct (make_request _ _ (delete_request _ id)) as [flag resp] eqn:Hreq. simpl.
  destruct flag; [|intros H; left; inversion H; reflexivity].
  destruct (json resp) as [body|e] eqn:Hjson; [|intros H; left; inversion H; reflexivity].
  destruct (py_truthy body) eqn:Htruthy; [|intros H; left; inversion H; reflexivity].
  destruct (py_contains "response" body) as [[|]|e] eqn:Hhas;
    [| |intros H; left; inversion H; reflexivity].
  - destruct (py_getitem body "response") as [rs|e] eqn:Hrs;
      [|intros H; left; inversion H; reflexivity].
    destruct (py_getitem_0 rs) as [first|e] eqn:Hfirst;
      [|intros H; left; inversion H; reflexivity].
    destruct (py_getitem first "errorCode") as [code|e] eqn:Hcode;
      [|intros H; left; inversion H; reflexivity].
    destruct (py_eq_0 code) eqn:Hzero; [|intros H; left; inversion H; reflexivity].
    destruct (_get_clients _ _ _) as [[d|e] w1] eqn:Hlist; simpl;
      [|intros H; left; inversion H; reflexivity].
    intros H. right. inversion H; subst. split; [reflexivity|].
    exists id, resp, body, first, code, d, w1.
    repeat split; try assumption; try reflexivity.
    eapply response_error_code_intro; eassumption.
  - repeat (match goal with
            | |- context [py_contains ?k ?b] => destruct (py_contains k b) as [[|]|?]
            | |- context [py_getitem ?b ?k] => destruct (py_getitem b k)
            | |- context [py_eq_0 ?c] => destruct (py_eq_0 c)
            end; simpl);
      intros H; left; inversion H; reflexivity.
Qed.

(** ** The registry *)

Lemma has_client_lower (self : Clients) (n m : string) :
  lower n = lower m -> has_client self (PyStr n) = has_client self (PyStr m).
Proof.
  intros E. unfold has_client. simpl. rewrite E. reflexivity.
Qed.

Lemma is_ascii_upper (s : string) : is_ascii s = true -> unicode_upper s = Some (upper s).
Proof.
  induction s as [|c s IH]; simpl.
  - reflexivity.
  - intros H. apply andb_prop in H. destruct H as [Hc Hs].
    rewrite Hc, (IH Hs). reflexivity.
Qed.

(** C5, as the code has it.  For a name [n] of ASCII characters, whose
    [n.upper()] is [upper n], [has_client] returns for [n] what it returns
    for [n.upper()]; and it returns the same for any two ASCII names with
    the same lowercased form. *)
Theorem has_client_case_insensitive_ascii (self : Clients) (n : string) :
  is_ascii n = true ->
  unicode_upper n = Some (upper n)
  /\ has_client self (PyStr n) = has_client self (PyStr (upper n))
  /\ (forall m : string,
        is_ascii m = true -> lower m = lower n ->
        has_client self (PyStr m) = has_client self (PyStr n)).
Proof.
  intros Hn. split; [apply is_ascii_upper; exact Hn|]. split.
  - apply has_client_lower. symmetry. apply lower_upper.
  - intros m _ E. apply has_client_lower. exact E.
Qed.

(** C7.  The keys of the cached mapping are lowercase.  A listing that
    returns yields a mapping whose keys are all lowercase; every entry the
    server listed has its lowercased name as a key, and every stored pair
    is the lowercased name and the lowercased [str] of the identifier of a
    listed entry (a string).  The mapping of a new registry is such a
    listing, and [delete], whatever its outcome, keeps the keys lowercase:
    it stores nothing but a new listing. *)
Theorem clients_keys_lowercase :
  (forall commcell_object CLIENTS w d w',
     _get_clients commcell_object CLIENTS w = (Return d, w') ->
     lowercase_keys d
     /\ exists resp body listed entries,
          make_request commcell_object (sent w)
            {| method := "GET"; url := CLIENTS; payload := None |} = (true, resp)
          /\ json resp = Return body
          /\ py_getitem body "clientProperties" = Return listed
          /\ py_iter listed = Return entries
          /\ (forall dictionary, In dictionary entries ->
                exists name id,
                  entry_field dictionary "clientName" = Return name
                  /\ entry_field dictionary "clientId" = Return id
                  /\ is_Some (d !! lower (py_str name)))
          /\ (forall k v, d !! k = Some v ->
                exists dictionary name id,
                  In dictionary entries
                  /\ entry_field dictionary "clientName" = Return name
                  /\ entry_field dictionary "clientId" = Return id
                  /\ k = lower (py_str name) /\ v = lower (py_str id)))
  /\ (forall commcell_object w self w',
        Clients__init__ commcell_object w = (Return self, w') ->
        lowercase_keys (_clients self))
  /\ (forall n s r s',
        lowercase_keys (_clients (registry s)) ->
        delete n s = (r, s') ->
        lowercase_keys (_clients (registry s'))).
Proof.
  split; [|split].
  - intros cc CLIENTS w d w' H.
    destruct (_get_clients_Return _ _ _ _ _ H)
      as (resp & body & listed & entries & H1 & H2 & H3 & H4 & H5).
    split; [eapply _get_clients_loop_lowercase; exact H5|].
    exists resp, body, listed, entries.
    destruct (_get_clients_loop_spec entries ∅ d H5) as (S1 & _ & S3).
    repeat split; try assumption.
    intros k v Hk. destruct (S1 k v Hk) as [Hin | Hsrc].
    + rewrite lookup_empty in Hin. discriminate Hin.
    + exact Hsrc.
  - intros cc w self w' H. unfold Clients__init__ in H.
    apply bind_Return in H. destruct H as (d & w1 & Hd & H).
    unfold ret in H. inversion H; subst. simpl.
    destruct (_get_clients_Return _ _ _ _ _ Hd) as (? & ? & ? & entries & _ & _ & _ & _ & H5).
    eapply _get_clients_loop_lowercase; exact H5.
  - intros n s r s' Hinv H.
    destruct (delete_cases n s s' r H)
      as [-> | (_ & id & resp & body & first & code & d & w1 & _ & _ & _ & _ & _ & Hd & ->)].
    + exact Hinv.
    + simpl.
      destruct (_get_clients_Return _ _ _ _ _ Hd) as (? & ? & ? & entries & _ & _ & _ & _ & H5).
      eapply _get_clients_loop_lowercase; exact H5.
Qed.

(** C8.  A failing call of a mutating operation leaves the cached mapping
    of the registry as it was; and when a call changes the mapping, the
    call is a [delete] of a listed name that returned, and the reply to its
    request had [errorCode == 0] in element 0 of its [response] array. *)
Theorem failing_call_keeps_cache (o : operation) (s s' : Session) (r : result unit) :
  run o s = (r, s') ->
  (forall e, r = Raise e -> _clients (registry s') = _clients (registry s))
  /\ (_clients (registry s') <> _clients (registry s) ->
      r = Return tt
      /\ exists n id resp body first code,
           o = OpDelete n
           /\ _clients (registry s) !! lower (py_str n) = Some id
           /\ make_request (clients_commcell_object (registry s)) (sent (world s))
                (delete_request (clients_commcell_object (registry s)) id) = (true, resp)
           /\ json resp = Return body
           /\ response_error_code body first code
           /\ py_eq_0 code = true).
Proof.
  intros H. destruct o as [n | c op]; simpl in H.
  - destruct (delete_cases n s s' r H)
      as [E | (-> & id & resp & body & first & code & d & w1 & H1 & H2 & H3 & H4 & H5 & _ & _)].
    + rewrite E. split; [reflexivity|]. intros Hne. exfalso. apply Hne. reflexivity.
    + split; [intros e He; discriminate He|].
      intros _. split; [reflexivity|].
      exists n, id, resp, body, first, code. auto 10.
  - unfold in_world in H. inversion H; subst. simpl.
    split; [reflexivity|]. intros Hne. exfalso. apply Hne. reflexivity.
Qed.

(** ** The client entity *)

Lemma _get_client_properties_None (commcell_object : Commcell) (CLIENT_url : string)
  (w w' : World) (rs : pyval * snapshot) :
  _get_client_properties commcell_object CLIENT_url w = (Return rs, w') ->
  fst rs = PyNone.
Proof.
  unfold _get_client_properties, bind, request, liftR, ret, raise. simpl.
  destruct (make_request commcell_object (sent w) _) as [flag resp]. simpl.
  destruct flag; [|discriminate].
  destruct (json resp) as [body|e]; [|discriminate].
  destruct (py_truthy body);
    [destruct (py_contains "clientProperties" body) as [[|]|e]|]; try discriminate.
  destruct (parse_client_properties body) as [snap|e]; [|discriminate].
  intros H. inversion H. reflexivity.
Qed.

Lemma construct_with_id_Return (commcell_object : Commcell) (name id : string)
  (w w' : World) (c : Client) :
  construct_with_id commcell_object name id w = (Return c, w') ->
  properties c = PyNone /\ _client_id c = id /\ _client_name c = name.
Proof.
  unfold construct_with_id. intros H.
  apply bind_Return in H. destruct H as (rs & w1 & Hrs & H).
  apply bind_Return in H. destruct H as (a & w2 & _ & H).
  apply bind_Return in H. destruct H as (s & w3 & _ & H).
  unfold ret in H. inversion H; subst. simpl.
  split; [|split; reflexivity].
  eapply _get_client_properties_None. exact Hrs.
Qed.

Lemma Client__init___unfold (depth : nat) (commcell_object : Commcell)
  (client_name client_id : pyval) :
  Client__init__ depth commcell_object client_name client_id =
  (id <- (if py_truthy client_id then ret (py_str client_id)
          else
            match depth with
            | O => raise RecursionError
            | S depth' =>
                clients <- Clients__init__ commcell_object;;
                c <- get_with (Client__init__ depth') clients
                       (PyStr (lower (py_str client_name)));;
                ret (_client_id c)
            end);;
   construct_with_id commcell_object (lower (py_str client_name)) id).
Proof. destruct depth; reflexivity. Qed.

Lemma Client__init___with_id (depth : nat) (commcell_object : Commcell)
  (client_name client_id : pyval) :
  py_truthy client_id = true ->
  Client__init__ depth commcell_object client_name client_id =
  construct_with_id commcell_object (lower (py_str client_name)) (py_str client_id).
Proof.
  intros H. rewrite Client__init___unfold. rewrite H. reflexivity.
Qed.

(** C10.  Whenever the constructor of a client entity returns, the
    [properties] attribute of the entity is [None]: the snapshot fetch
    returns no value, and what it parsed is in the private attributes. *)
Theorem properties_is_None (depth : nat) (commcell_object : Commcell)
  (client_name client_id : pyval) (w w' : World) (c : Client) :
  Client__init__ depth commcell_object client_name client_id w = (Return c, w') ->
  properties c = PyNone.
Proof.
  rewrite Client__init___unfold. intros H.
  apply bind_Return in H. destruct H as (id & w1 & _ & H).
  apply construct_with_id_Return in H. tauto.
Qed.

Lemma has_client_present (self : Clients) (n id : string) :
  _clients self !! lower n = Some id ->
  has_client self (PyStr n) = Return (HasBool true).
Proof.
  intros H. unfold has_client. simpl.
  rewrite bool_decide_eq_false_2.
  - rewrite H. reflexivity.
  - intros E. rewrite E, lookup_empty in H. discriminate H.
Qed.

Lemma has_client_absent (self : Clients) (n : string) :
  _clients self !! lower n = None ->
  exists v, has_client self (PyStr n) = Return v /\ has_client_truthy v = false.
Proof.
  intros H. unfold has_client. simpl.
  destruct (bool_decide (_clients self = ∅)) eqn:E.
  - eexists. split; [reflexivity|]. simpl. rewrite E. reflexivity.
  - eexists. split; [reflexivity|]. simpl. rewrite H. reflexivity.
Qed.

(** The identifier that a listing records for an integer is never empty. *)
Lemma pretty_N_go_length (x : N) :
  forall s : string, (String.length s <= String.length (pretty_N_go x s))%nat.
Proof.
  induction (N.lt_wf_0 x) as [x _ IH]. intros s.
  destruct (N.eq_dec x 0%N) as [-> | Hx].
  - rewrite pretty_N_go_0. lia.
  - rewrite pretty_N_go_step by lia.
    specialize (IH (x `div` 10)%N ltac:(apply N.div_lt; lia)
                  (String (pretty_N_char (x `mod` 10)) s)).
    simpl in IH. lia.
Qed.

Lemma pretty_N_nonempty (x : N) : pretty x <> EmptyString.
Proof.
  unfold pretty, pretty_N. destruct (decide (x = 0%N)) as [-> | Hx]; [discriminate|].
  rewrite pretty_N_go_step by lia.
  intros E.
  pose proof (pretty_N_go_length (x `div` 10)%N
                (String (pretty_N_char (x `mod` 10)) EmptyString)) as L.
  rewrite E in L. simpl in L. lia.
Qed.

Lemma recorded_integer_nonempty (k : Z) : lower (py_str (PyInt k)) <> EmptyString.
Proof.
  assert (H : pretty k <> EmptyString).
  { destruct k as [|p|p]; unfold pretty, pretty_Z.
    - discriminate.
    - apply pretty_N_nonempty.
    - discriminate. }
  simpl. destruct (pretty k); [contradiction H; reflexivity | discriminate].
Qed.

(** C6.  For a name [n] whose lowercased form the mapping holds with the
    identifier [id] (never empty: the listing records [str] of the
    server's integer identifier), [get] constructs the entity from the
    lowercased name and [id], with no further lookup of the identifier
    (hence depth 0 below): when that construction returns an entity,
    [get] returns it, and its id is [id].  For a name the mapping does
    not hold, [get] raises Client/102 with the lowercased name in its
    message, and sends nothing. *)
Theorem get_constructs_listed_entity (depth : nat) (self : Clients) (n : string) (w : World) :
  (forall id c w',
     _clients self !! lower n = Some id ->
     id <> EmptyString ->
     Client__init__ 0 (clients_commcell_object self) (PyStr (lower n)) (PyStr id) w
       = (Return c, w') ->
     get depth self (PyStr n) w = (Return c, w')
     /\ client_id c = id /\ client_name c = lower n)
  /\ (_clients self !! lower n = None ->
      get depth self (PyStr n) w =
        (Raise (SDKException "Client" "102"
                  (Some ("No client exists with name: " +:+ lower n))), w)).
Proof.
  split.
  - intros id c w' Hid Hne Hc.
    assert (Ht : py_truthy (PyStr id) = true).
    { simpl. destruct id; [contradiction Hne; reflexivity | reflexivity]. }
    rewrite (Client__init___with_id 0 _ _ _ Ht) in Hc.
    unfold get, get_with. simpl. unfold bind at 1, liftR at 1.
    rewrite (has_client_present self (lower n) id) by (rewrite lower_idem; exact Hid).
    simpl. rewrite Hid.
    rewrite (Client__init___with_id depth _ _ _ Ht).
    split; [exact Hc|].
    apply construct_with_id_Return in Hc. simpl in Hc.
    destruct Hc as (_ & H1 & H2). unfold client_id, client_name.
    rewrite H1, H2. split; [reflexivity | apply lower_idem].
  - intros Hnone.
    unfold get, get_with. simpl. unfold bind at 1, liftR at 1.
    destruct (has_client_absent self (lower n)) as (v & Hv & Hf).
    { rewrite lower_idem. exact Hnone. }
    rewrite Hv, Hf. reflexivity.
Qed.

(** ** The activity operations *)

Lemma call_unfold (self : Client) (op : activity_op) :
  call self op =
  match op with
  | Enable a =>
      submit self (activity_name a) (PyBool true) PyNone ("Failed to " +:+ operation_name op)
  | EnableAtTime a t =>
      (_ <- check_enable_time t;;
       submit self (activity_name a) (PyBool false) t ("Failed to " +:+ operation_name op))
  | Disable a =>
      submit self (activity_name a) (PyBool false) PyNone ("Failed to " +:+ operation_name op)
  end.
Proof. destruct op as [[]|[] t|[]]; reflexivity. Qed.

Lemma _request_json__returns (self : Client) (a : activity) (enable enable_time : pyval) :
  exists doc, _request_json_ self (activity_name a) enable enable_time = Return doc.
Proof.
  unfold _request_json_. destruct a; simpl; destruct (py_truthy enable_time); eauto.
Qed.

Lemma submit_run (self : Client) (a : activity) (enable enable_time : pyval)
  (failure : string) (w : World) :
  exists doc,
    _request_json_ self (activity_name a) enable enable_time = Return doc
    /\ submit self (activity_name a) enable enable_time failure w =
       activity_response (_commcell_object self) failure
         (make_request (_commcell_object self) (sent w) (post_request self doc))
         (after_request w (post_request self doc)).
Proof.
  destruct (_request_json__returns self a enable enable_time) as (doc & Hdoc).
  exists doc. split; [exact Hdoc|].
  unfold submit. rewrite Hdoc. reflexivity.
Qed.

(** A validated call is the reading of the reply to its one request. *)
Lemma call_validated (self : Client) (op : activity_op) (w : World) :
  validated op w ->
  exists doc,
    call self op w =
    activity_response (_commcell_object self) ("Failed to " +:+ operation_name op)
      (make_request (_commcell_object self) (sent w) (post_request self doc))
      (after_request w (post_request self doc)).
Proof.
  intros Hv. rewrite call_unfold. destruct op as [a | a t | a].
  - destruct (submit_run self a (PyBool true) PyNone
                ("Failed to " +:+ operation_name (Enable a)) w) as (doc & _ & E).
    exists doc. exact E.
  - destruct (submit_run self a (PyBool false) t
                ("Failed to " +:+ operation_name (EnableAtTime a t)) w) as (doc & _ & E).
    exists doc. simpl in Hv. unfold bind at 1. rewrite Hv. exact E.
  - destruct (submit_run self a (PyBool false) PyNone
                ("Failed to " +:+ operation_name (Disable a)) w) as (doc & _ & E).
    exists doc. exact E.
Qed.

Lemma activity_response_zero (commcell_object : Commcell) (failure : string)
  (resp : Response) (body first code : pyval) (w : World) :
  json resp = Return body ->
  response_error_code body first code ->
  py_eq_0 code = true ->
  activity_response commcell_object failure (true, resp) w = (Return tt, w).
Proof.
  intros Hj Hr Hz.
  destruct (response_error_code_elim _ _ _ Hr) as (Ht & Hc & rs & H1 & H2 & H3).
  unfold activity_response, bind, liftR, ret. simpl.
  rewrite Hj, Ht, Hc, H1, H2, H3, Hz. reflexivity.
Qed.

Lemma activity_response_message (commcell_object : Commcell) (failure : string)
  (resp : Response) (body first code message : pyval) (w : World) :
  json resp = Return body ->
  response_error_code body first code ->
  py_eq_0 code = false ->
  has_field first "errorMessage" message ->
  activity_response commcell_object failure (true, resp) w =
  (Raise (SDKException "Client" "102"
            (Some (failure +:+ newline +:+ "Error: " +:+ dquote
                   +:+ py_str message +:+ dquote))), w).
Proof.
  intros Hj Hr Hz Hm.
  destruct (response_error_code_elim _ _ _ Hr) as (Ht & Hc & rs & H1 & H2 & H3).
  unfold activity_response, bind, liftR, ret, raise. simpl.
  rewrite Hj, Ht, Hc, H1, H2, H3, Hz.
  rewrite (has_field_contains _ _ _ Hm), (has_field_getitem _ _ _ Hm). reflexivity.
Qed.

Lemma activity_response_silent (commcell_object : Commcell) (failure : string)
  (resp : Response) (body first code : pyval) (w : World) :
  json resp = Return body ->
  response_error_code body first code ->
  py_eq_0 code = false ->
  lacks_field first "errorMessage" ->
  activity_response commcell_object failure (true, resp) w = (Return tt, w).
Proof.
  intros Hj Hr Hz Hm.
  destruct (response_error_code_elim _ _ _ Hr) as (Ht & Hc & rs & H1 & H2 & H3).
  unfold activity_response, bind, liftR, ret, raise. simpl.
  rewrite Hj, Ht, Hc, H1, H2, H3, Hz.
  rewrite (lacks_field_contains _ _ Hm). reflexivity.
Qed.

Lemma activity_response_empty (commcell_object : Commcell) (failure : string)
  (resp : Response) (body : pyval) (w : World) :
  json resp = Return body ->
  py_truthy body = false \/ py_contains "response" body = Return false ->
  activity_response commcell_object failure (true, resp) w =
  (Raise (SDKException "Response" "102" None), w).
Proof.
  intros Hj H. unfold activity_response, bind, liftR, ret, raise. simpl. rewrite Hj.
  destruct (py_truthy body).
  - destruct H as [H | H]; [discriminate H|]. rewrite H. reflexivity.
  - reflexivity.
Qed.

Lemma operation_document_returns (self : Client) (op : activity_op) :
  exists doc, operation_document self op = Return doc.
Proof. destruct op as [a | a t | a]; apply _request_json__returns. Qed.

(** A validated call posts the document of the operation and reads the
    reply to that request. *)
Lemma call_on_document (self : Client) (op : activity_op) (w : World) (doc : pyval) :
  validated op w ->
  operation_document self op = Return doc ->
  call self op w =
  activity_response (_commcell_object self) ("Failed to " +:+ operation_name op)
    (make_request (_commcell_object self) (sent w) (post_request self doc))
    (after_request w (post_request self doc)).
Proof.
  intros Hv Hdoc. rewrite call_unfold.
  destruct op as [a | a t | a]; simpl in Hdoc, Hv;
    try (unfold bind at 1; rewrite Hv);
    unfold submit; rewrite Hdoc; reflexivity.
Qed.

(** C1.  How every activity operation reads the reply to the request it
    sends, once the time of an [enable_..._at_time] call is validated;
    [doc] is the document the operation builds and [(flag, resp)] the
    outcome of the transport for the POST of that document.  With a
    successful transport and a decoded body whose [response] array has
    [errorCode == 0] in element 0, the operation returns; with a non-zero
    [errorCode] and an [errorMessage] there, it raises Client/102 with the
    operation and the message in its text; with a body that is empty, or
    in which [response] is not found, it raises Response/102; with a
    failed transport it raises Response/101 with the response text as
    [_update_response_] of the commcell object renders it, which is the
    raw text when that helper returns its argument. *)
Theorem activity_response_contract (self : Client) (op : activity_op) (w : World)
  (doc : pyval) (flag : bool) (resp : Response) :
  validated op w ->
  operation_document self op = Return doc ->
  make_request (_commcell_object self) (sent w) (post_request self doc) = (flag, resp) ->
  (forall body first code,
     flag = true -> json resp = Return body ->
     response_error_code body first code -> py_eq_0 code = true ->
     fst (call self op w) = Return tt)
  /\ (forall body first code message,
        flag = true -> json resp = Return body ->
        response_error_code body first code -> py_eq_0 code = false ->
        has_field first "errorMessage" message ->
        fst (call self op w) =
          Raise (SDKException "Client" "102"
                   (Some ("Failed to " +:+ operation_name op +:+ newline +:+ "Error: "
                          +:+ dquote +:+ py_str message +:+ dquote))))
  /\ (forall body,
        flag = true -> json resp = Return body ->
        py_truthy body = false \/ py_contains "response" body = Return false ->
        fst (call self op w) = Raise (SDKException "Response" "102" None))
  /\ (flag = false ->
      fst (call self op w) =
        Raise (SDKException "Response" "101"
                 (Some (_update_response_ (_commcell_object self) (text resp)))))
  /\ (flag = false ->
      _update_response_ (_commcell_object self) (text resp) = text resp ->
      fst (call self op w) = Raise (SDKException "Response" "101" (Some (text resp)))).
Proof.
  intros Hv Hdoc Hreply.
  rewrite (call_on_document self op w doc Hv Hdoc), Hreply.
  split; [|split; [|split; [|split]]].
  - intros body first code -> Hj Hr Hz.
    erewrite activity_response_zero; [reflexivity | eassumption ..].
  - intros body first code message -> Hj Hr Hz Hm.
    erewrite activity_response_message; [ | eassumption ..].
    clear. destruct op as [[]|[] ?|[]]; reflexivity.
  - intros body -> Hj H.
    erewrite activity_response_empty; [reflexivity | eassumption ..].
  - intros ->. reflexivity.
  - intros -> E. simpl. rewrite E. reflexivity.
Qed.

(** C9.  A reply to the request of an activity operation whose [response]
    array has a non-zero [errorCode] in element 0 and no [errorMessage]
    there makes the operation return as it does on success: nothing is
    raised.  [doc] is the document the operation builds and [resp] the
    reply to the POST of that document. *)
Theorem silent_on_error_without_message (self : Client) (op : activity_op) (w : World)
  (doc : pyval) (resp : Response) (body first code : pyval) :
  validated op w ->
  operation_document self op = Return doc ->
  make_request (_commcell_object self) (sent w) (post_request self doc) = (true, resp) ->
  json resp = Return body ->
  response_error_code body first code ->
  py_eq_0 code = false ->
  lacks_field first "errorMessage" ->
  fst (call self op w) = Return tt.
Proof.
  intros Hv Hdoc Hreply Hj Hr Hz Hm.
  rewrite (call_on_document self op w doc Hv Hdoc), Hreply.
  erewrite activity_response_silent; [reflexivity | eassumption ..].
Qed.

(** ** The scheduled operations *)

Lemma check_enable_time_unparsed (ts : string) (w : World) :
  time_strptime ts time_format = None ->
  check_enable_time (PyStr ts) w = (Raise (SDKException "Client" "104" None), w).
Proof.
  intros H. unfold check_enable_time, try_except_ValueError, bind, raise.
  rewrite H. reflexivity.
Qed.

Lemma check_enable_time_parsed (ts : string) (t : struct_time) (seconds : float) (w : World) :
  time_strptime ts time_format = Some t ->
  time_mktime t = Return seconds ->
  check_enable_time (PyStr ts) w =
  if PrimFloat.ltb seconds (clock w)
  then (Raise (SDKException "Client" "103" None), w)
  else (Return tt, w).
Proof.
  intros H1 H2.
  unfold check_enable_time, try_except_ValueError, bind, raise, ret, liftR, time_time.
  rewrite H1, H2. destruct (PrimFloat.ltb seconds (clock w)); reflexivity.
Qed.

Lemma call_rejected (self : Client) (a : activity) (t : pyval) (w : World) (e : exn) :
  check_enable_time t w = (Raise e, w) ->
  call self (EnableAtTime a t) w = (Raise e, w).
Proof.
  intros H. rewrite call_unfold. unfold bind at 1. rewrite H. reflexivity.
Qed.

(** C4, as the code has it.  A time that [time.strptime] does not parse
    makes every [enable_..._at_time] operation raise Client/104, and a
    time whose instant is strictly earlier than the current time makes it
    raise Client/103; the world is the same after as before, so nothing
    was sent.  An instant that is not earlier than the current time, the
    current time itself included, passes the validation. *)
Theorem enable_at_time_validation (self : Client) (a : activity) (ts : string) (w : World) :
  (time_strptime ts time_format = None ->
   call self (EnableAtTime a (PyStr ts)) w = (Raise (SDKException "Client" "104" None), w))
  /\ (forall t seconds,
        time_strptime ts time_format = Some t ->
        time_mktime t = Return seconds ->
        PrimFloat.ltb seconds (clock w) = true ->
        call self (EnableAtTime a (PyStr ts)) w
          = (Raise (SDKException "Client" "103" None), w))
  /\ (forall t seconds,
        time_strptime ts time_format = Some t ->
        time_mktime t = Return seconds ->
        PrimFloat.ltb seconds (clock w) = false ->
        validated (EnableAtTime a (PyStr ts)) w).
Proof.
  repeat split.
  - intros H. apply call_rejected. apply check_enable_time_unparsed. exact H.
  - intros t seconds H1 H2 H3. apply call_rejected.
    rewrite (check_enable_time_parsed ts t seconds w H1 H2), H3. reflexivity.
  - intros t seconds H1 H2 H3. simpl.
    rewrite (check_enable_time_parsed ts t seconds w H1 H2), H3. reflexivity.
Qed.

(** ** The request builder *)

(** C3.  For each activity and each value of the enabled flag: without
    a scheduled time the builder returns a document whose one option
    record holds the activity code, [enableAfterADelay] false and the
    flag, and no [dateTime]; with a scheduled time, a string that is not
    empty, its one option record holds the activity code,
    [enableAfterADelay] true, [enableActivityType] false whatever the
    flag, and [dateTime] with the time as given. *)
Theorem request_json_shape (self : Client) (a : activity) (enabled : bool) :
  (exists doc,
     _request_json_ self (activity_name a) (PyBool enabled) PyNone = Return doc
     /\ option_records doc =
        Return (PyList [PyDict [("activityType", PyInt (activity_code a));
                                ("enableAfterADelay", PyBool false);
                                ("enableActivityType", PyBool enabled)]]))
  /\ (forall ts : string,
        ts <> EmptyString ->
        exists doc,
          _request_json_ self (activity_name a) (PyBool enabled) (PyStr ts) = Return doc
          /\ option_records doc =
             Return (PyList [PyDict [("activityType", PyInt (activity_code a));
                                     ("enableAfterADelay", PyBool true);
                                     ("enableActivityType", PyBool false);
                                     ("dateTime",
                                       PyDict [("TimeZoneName", PyStr UTC_zone);
                                               ("timeValue", PyStr ts)])]])).
Proof.
  split.
  - destruct a; eexists; split; reflexivity.
  - intros ts Hne. destruct ts as [|c ts]; [contradiction Hne; reflexivity|].
    destruct a; eexists; split; reflexivity.
Qed.

(** ** The outcomes of Clients.delete *)



End Properties.

(** * More of the module *)

Section MoreProperties.

Context {ext : Externals} {wrappers : Wrappers}.

(** ** Arguments that are no strings *)

(** X1.  A name that is not a string is refused by [has_client], [get]
    and [delete] alike with Client/101, and [get] and [delete] leave the
    world, respectively the session, as it was: nothing is sent. *)
Theorem non_string_name_rejected (depth : nat) (self : Clients) (v : pyval)
  (w : World) (s : Session) :
  isinstance_str v = false ->
  has_client self v = Raise (SDKException "Client" "101" None)
  /\ get depth self v w = (Raise (SDKException "Client" "101" None), w)
  /\ delete v s = (Raise (SDKException "Client" "101" None), s).
Proof.
  intros H. unfold has_client, get, get_with, delete. rewrite H. simpl.
  repeat split.
Qed.

(** ** The listing *)

Lemma _get_clients_world (commcell_object : Commcell) (CLIENTS : string) (w : World) :
  snd (_get_clients commcell_object CLIENTS w) = after_request w (get_request CLIENTS).
Proof.
  unfold _get_clients, bind, request, liftR, ret, raise. simpl.
  fold (get_request CLIENTS).
  destruct (make_request commcell_object (sent w) (get_request CLIENTS)) as [flag resp].
  simpl. destruct flag; [|reflexivity].
  destruct (json resp) as [body|e]; [|reflexivity].
  destruct (py_truthy body);
    [destruct (py_contains "clientProperties" body) as [[|]|e]|]; try reflexivity.
  destruct (py_getitem body "clientProperties") as [listed|e]; [|reflexivity].
  destruct (py_iter listed) as [entries|e]; [|reflexivity].
  destruct (_get_clients_loop entries ∅); reflexivity.
Qed.

(** X2.  A listing sends one GET request to the listing URL whatever
    comes of it.  A failed transport raises Response/101 with the response
    text as [_update_response_] renders it; a decoded body that is empty,
    or in which [clientProperties] is not found, raises Response/102; and
    an empty [clientProperties] array gives the empty mapping. *)
Theorem listing_outcomes (commcell_object : Commcell) (CLIENTS : string) (w : World)
  (flag : bool) (resp : Response) :
  make_request commcell_object (sent w) (get_request CLIENTS) = (flag, resp) ->
  snd (_get_clients commcell_object CLIENTS w) = after_request w (get_request CLIENTS)
  /\ (flag = false ->
      fst (_get_clients commcell_object CLIENTS w) =
        Raise (SDKException "Response" "101"
                 (Some (_update_response_ commcell_object (text resp)))))
  /\ (forall body,
        flag = true -> json resp = Return body ->
        py_truthy body = false \/ py_contains "clientProperties" body = Return false ->
        fst (_get_clients commcell_object CLIENTS w) =
          Raise (SDKException "Response" "102" None))
  /\ (forall body,
        flag = true -> json resp = Return body ->
        has_field body "clientProperties" (PyList []) ->
        fst (_get_clients commcell_object CLIENTS w) = Return ∅).
Proof.
  intros Hreq. split; [apply _get_clients_world|].
  unfold _get_clients, bind, request, liftR, ret, raise. simpl.
  fold (get_request CLIENTS). rewrite Hreq. simpl.
  split; [|split].
  - intros ->. reflexivity.
  - intros body -> Hj H. rewrite Hj. destruct (py_truthy body).
    + destruct H as [H | H]; [discriminate H|]. rewrite H. reflexivity.
    + reflexivity.
  - intros body -> Hj H. rewrite Hj.
    assert (Hb : py_truthy body = true).
    { destruct H as (fields & -> & E). destruct fields; [discriminate E | reflexivity]. }
    rewrite Hb, (has_field_contains _ _ _ H), (has_field_getitem _ _ _ H). reflexivity.
Qed.

Lemma _get_clients_loop_app (before after : list pyval) :
  forall d0 : gmap string string,
    _get_clients_loop (before ++ after)%list d0 =
    rbind (_get_clients_loop before d0) (_get_clients_loop after).
Proof.
  induction before as [|x before IH]; intros d0; simpl.
  - reflexivity.
  - destruct (py_getitem x "client") as [client|e]; simpl; [|reflexivity].
    destruct (py_getitem client "clientEntity") as [entity|e]; simpl; [|reflexivity].
    destruct (py_getitem entity "clientName") as [name|e]; simpl; [|reflexivity].
    destruct (py_getitem entity "clientId") as [id|e]; simpl; [|reflexivity].
    apply IH.
Qed.

Lemma _get_clients_loop_cons (dictionary name id : pyval) (rest : list pyval)
  (d0 : gmap string string) :
  entry_field dictionary "clientName" = Return name ->
  entry_field dictionary "clientId" = Return id ->
  _get_clients_loop (dictionary :: rest) d0 =
  _get_clients_loop rest (<[lower (py_str name) := lower (py_str id)]> d0).
Proof.
  unfold entry_field. intros Hn Hi. simpl.
  destruct (py_getitem dictionary "client") as [client|e]; simpl in *; [|discriminate].
  destruct (py_getitem client "clientEntity") as [entity|e]; simpl in *; [|discriminate].
  rewrite Hn. simpl. rewrite Hi. reflexivity.
Qed.

(** A key that no later entry has keeps what it holds. *)
Lemma _get_clients_loop_frame (entries : list pyval) (d0 d : gmap string string)
  (k v : string) :
  _get_clients_loop entries d0 = Return d ->
  d0 !! k = Some v ->
  (forall e n, In e entries -> entry_field e "clientName" = Return n ->
               lower (py_str n) <> k) ->
  d !! k = Some v.
Proof.
  intros H Hk Hfree.
  destruct (_get_clients_loop_spec entries d0 d H) as (S1 & S2 & _).
  destruct (S2 k) as [x Hx]; [eauto|].
  destruct (S1 k x Hx) as [Hold | (e & n & i & Hin & Hn & _ & Hkn & _)].
  - rewrite Hx. rewrite Hold in Hk. exact Hk.
  - exfalso. apply (Hfree e n Hin Hn). symmetry. exact Hkn.
Qed.

(** X3.  Of several listed entries whose names agree up to letter case,
    the last decides: the mapping of a listing that returns holds, under
    the lowercased name of an entry that no later entry repeats, the
    lowercased [str] of the identifier of that entry. *)
Theorem listing_last_entry_wins (commcell_object : Commcell) (CLIENTS : string)
  (w w' : World) (d : gmap string string) (resp : Response) (body listed : pyval)
  (before after : list pyval) (dictionary name id : pyval) :
  _get_clients commcell_object CLIENTS w = (Return d, w') ->
  make_request commcell_object (sent w) (get_request CLIENTS) = (true, resp) ->
  json resp = Return body ->
  py_getitem body "clientProperties" = Return listed ->
  py_iter listed = Return (before ++ dictionary :: after)%list ->
  entry_field dictionary "clientName" = Return name ->
  entry_field dictionary "clientId" = Return id ->
  (forall e n, In e after -> entry_field e "clientName" = Return n ->
               lower (py_str n) <> lower (py_str name)) ->
  d !! lower (py_str name) = Some (lower (py_str id)).
Proof.
  intros H Hreq Hj Hl Hi Hn Hid Hfree.
  destruct (_get_clients_Return _ _ _ _ _ H)
    as (resp' & body' & listed' & entries & H1 & H2 & H3 & H4 & H5).
  unfold get_request in Hreq. rewrite Hreq in H1. inversion H1; subst resp'.
  rewrite Hj in H2. inversion H2; subst body'.
  rewrite Hl in H3. inversion H3; subst listed'.
  rewrite Hi in H4. inversion H4; subst entries.
  rewrite _get_clients_loop_app in H5.
  apply rbind_Return in H5. destruct H5 as (d1 & _ & H5).
  rewrite (_get_clients_loop_cons _ _ _ _ _ Hn Hid) in H5.
  eapply _get_clients_loop_frame; [exact H5 | apply lookup_insert_eq | exact Hfree].
Qed.

(** X4.  After a registry is built, the names that exist are the listed
    names up to letter case: [has_client] is true of a string exactly when
    its lowercased form is the lowercased name of a listed entry. *)
Theorem listed_names_exist (commcell_object : Commcell) (w w' : World) (self : Clients)
  (resp : Response) (body listed : pyval) (entries : list pyval) (n : string) :
  Clients__init__ commcell_object w = (Return self, w') ->
  make_request commcell_object (sent w) (get_request (GET_ALL_CLIENTS commcell_object))
    = (true, resp) ->
  json resp = Return body ->
  py_getitem body "clientProperties" = Return listed ->
  py_iter listed = Return entries ->
  has_client self (PyStr n) = Return (HasBool true)
  <-> exists dictionary name,
        In dictionary entries
        /\ entry_field dictionary "clientName" = Return name
        /\ lower (py_str name) = lower n.
Proof.
  intros H Hreq Hj Hl Hi. unfold Clients__init__ in H.
  apply bind_Return in H. destruct H as (d & w1 & Hd & H).
  unfold ret in H. inversion H; subst self w1. clear H.
  destruct (_get_clients_Return _ _ _ _ _ Hd)
    as (resp' & body' & listed' & entries' & H1 & H2 & H3 & H4 & H5).
  unfold get_request in Hreq. rewrite Hreq in H1. inversion H1; subst resp'.
  rewrite Hj in H2. inversion H2; subst body'.
  rewrite Hl in H3. inversion H3; subst listed'.
  rewrite Hi in H4. inversion H4; subst entries'.
  destruct (_get_clients_loop_spec entries ∅ d H5) as (S1 & _ & S3).
  split.
  - intros Hhas. unfold has_client in Hhas. simpl in Hhas.
    destruct (bool_decide (d = ∅)); [discriminate Hhas|].
    destruct (d !! lower n) as [v|] eqn:Hv; [|discriminate Hhas].
    destruct (S1 _ _ Hv) as [Hin | (e & nm & i & Hin & Hn & _ & Hk & _)].
    + rewrite lookup_empty in Hin. discriminate Hin.
    + exists e, nm. auto.
  - intros (e & nm & Hin & Hn & Hk).
    destruct (S3 e Hin) as (nm' & i & Hn' & _ & [v Hv]).
    rewrite Hn in Hn'. inversion Hn'; subst nm'.
    rewrite Hk in Hv. eapply has_client_present. exact Hv.
Qed.

(** ** Clients.delete, request by request *)

Ltac read_delete Hid Hreq :=
  unfold delete; simpl; unfold bind at 1; unfold liftR at 1;
  rewrite (has_client_present _ _ _ ltac:(rewrite lower_idem; exact Hid));
  simpl; rewrite Hid;
  unfold bind, liftR, in_world, request, raise, ret, set_clients; simpl;
  match type of Hreq with
  | make_request ?cc _ (delete_request _ ?id) = _ => fold (delete_request cc id)
  end;
  rewrite Hreq; simpl.

Lemma delete_after_zero (n id : string) (s : Session) (resp : Response)
  (body first code : pyval) :
  _clients (registry s) !! lower n = Some id ->
  make_request (clients_commcell_object (registry s)) (sent (world s))
    (delete_request (clients_commcell_object (registry s)) id) = (true, resp) ->
  json resp = Return body ->
  response_error_code body first code ->
  py_eq_0 code = true ->
  delete (PyStr n) s =
  match _get_clients (clients_commcell_object (registry s)) (_CLIENTS (registry s))
          (after_request (world s)
             (delete_request (clients_commcell_object (registry s)) id)) with
  | (Return d, w2) =>
      (Return tt,
       {| registry := {| clients_commcell_object := clients_commcell_object (registry s);
                         _CLIENTS := _CLIENTS (registry s);
                         _clients := d |};
          world := w2 |})
  | (Raise e, w2) => (Raise e, {| registry := registry s; world := w2 |})
  end.
Proof.
  intros Hid Hreq Hj Hr Hz.
  destruct (response_error_code_elim _ _ _ Hr) as (Ht & Hc & rs & H1 & H2 & H3).
  read_delete Hid Hreq. rewrite Hj, Ht, Hc, H1, H2, H3, Hz.
  unfold after_request.
  destruct (_get_clients _ _ _) as [[d|e] w2]; reflexivity.
Qed.

(** X5.  A [delete] of a listed name whose reply has [errorCode == 0] in
    element 0 of [response], followed by a listing that returns, returns
    and stores that listing as the mapping.  A name the new listing does
    not hold no longer exists: [has_client] is then false of it. *)
Theorem delete_refreshes_cache (n id : string) (s : Session) (resp : Response)
  (body first code : pyval) (d : gmap string string) (w2 : World) :
  _clients (registry s) !! lower n = Some id ->
  make_request (clients_commcell_object (registry s)) (sent (world s))
    (delete_request (clients_commcell_object (registry s)) id) = (true, resp) ->
  json resp = Return body ->
  response_error_code body first code ->
  py_eq_0 code = true ->
  _get_clients (clients_commcell_object (registry s)) (_CLIENTS (registry s))
    (after_request (world s) (delete_request (clients_commcell_object (registry s)) id))
    = (Return d, w2) ->
  fst (delete (PyStr n) s) = Return tt
  /\ _clients (registry (snd (delete (PyStr n) s))) = d
  /\ world (snd (delete (PyStr n) s)) = w2
  /\ (d !! lower n = None ->
      exists v, has_client (registry (snd (delete (PyStr n) s))) (PyStr n) = Return v
                /\ has_client_truthy v = false).
Proof.
  intros Hid Hreq Hj Hr Hz Hd.
  rewrite (delete_after_zero n id s resp body first code Hid Hreq Hj Hr Hz), Hd. simpl.
  repeat split.
  intros Hnone. apply has_client_absent. exact Hnone.
Qed.

(** X6.  When the listing that follows such a [delete] raises, [delete]
    raises the same exception and assigns nothing: the mapping still
    holds the name, [has_client] is still true of it, and both requests,
    the DELETE and the GET of the listing, were sent. *)
Theorem delete_keeps_stale_name (n id : string) (s : Session) (resp : Response)
  (body first code : pyval) (e : exn) (w2 : World) :
  _clients (registry s) !! lower n = Some id ->
  make_request (clients_commcell_object (registry s)) (sent (world s))
    (delete_request (clients_commcell_object (registry s)) id) = (true, resp) ->
  json resp = Return body ->
  response_error_code body first code ->
  py_eq_0 code = true ->
  _get_clients (clients_commcell_object (registry s)) (_CLIENTS (registry s))
    (after_request (world s) (delete_request (clients_commcell_object (registry s)) id))
    = (Raise e, w2) ->
  fst (delete (PyStr n) s) = Raise e
  /\ registry (snd (delete (PyStr n) s)) = registry s
  /\ has_client (registry (snd (delete (PyStr n) s))) (PyStr n) = Return (HasBool true)
  /\ sent (world (snd (delete (PyStr n) s))) =
     (sent (world s)
      ++ [delete_request (clients_commcell_object (registry s)) id;
          get_request (_CLIENTS (registry s))])%list.
Proof.
  intros Hid Hreq Hj Hr Hz Hd.
  rewrite (delete_after_zero n id s resp body first code Hid Hreq Hj Hr Hz), Hd. simpl.
  split; [reflexivity|]. split; [reflexivity|].
  split; [eapply has_client_present; exact Hid|].
  pose proof (_get_clients_world (clients_commcell_object (registry s))
                (_CLIENTS (registry s))
                (after_request (world s)
                   (delete_request (clients_commcell_object (registry s)) id))) as Hw.
  rewrite Hd in Hw. simpl in Hw. subst w2. simpl.
  rewrite <- app_assoc. reflexivity.
Qed.

Lemma delete_sent (v : pyval) (s s' : Session) (r : result unit) :
  delete v s = (r, s') ->
  clock (world s') = clock (world s)
  /\ (sent (world s') = sent (world s)
      \/ exists id,
           _clients (registry s) !! lower (py_str v) = Some id
           /\ (sent (world s') =
                 (sent (world s)
                  ++ [delete_request (clients_commcell_object (registry s)) id])%list
               \/ (sent (world s') =
                     (sent (world s)
                      ++ [delete_request (clients_commcell_object (registry s)) id;
                          get_request (_CLIENTS (registry s))])%list
                   /\ exists resp body first code,
                        make_request (clients_commcell_object (registry s))
                          (sent (world s))
                          (delete_request (clients_commcell_object (registry s)) id)
                          = (true, resp)
                        /\ json resp = Return body
                        /\ response_error_code body first code
                        /\ py_eq_0 code = true))).
Proof.
  unfold delete. destruct v as [ | | | | n | | ]; simpl;
    try (intros H; inversion H; subst; split; [reflexivity | left; reflexivity]).
  unfold bind at 1. unfold liftR at 1. unfold has_client. simpl.
  rewrite lower_idem.
  destruct (bool_decide (_clients (registry s) = ∅)) eqn:Hempty; simpl.
  { rewrite Hempty. simpl.
    intros H; inversion H; subst; split; [reflexivity | left; reflexivity]. }
  destruct (_clients (registry s) !! lower n) as [id|] eqn:Hid; simpl.
  2:{ intros H; inversion H; subst; split; [reflexivity | left; reflexivity]. }
  unfold bind, liftR, in_world, request, raise, ret, set_clients. simpl.
  fold (delete_request (clients_commcell_object (registry s)) id).
  destruct (make_request _ _ (delete_request _ id)) as [flag resp] eqn:Hreq. simpl.
  assert (Hone : forall r0 : result unit,
            (r0, {| registry := registry s;
                    world := {| sent := sent (world s)
                                        ++ [delete_request
                                              (clients_commcell_object (registry s)) id];
                                clock := clock (world s) |} |}) = (r, s') ->
            clock (world s') = clock (world s)
            /\ (sent (world s') = sent (world s)
                \/ exists id0,
                     Some id = Some id0
                     /\ (sent (world s') =
                           (sent (world s)
                            ++ [delete_request (clients_commcell_object (registry s)) id0])%list
                         \/ (sent (world s') =
                               (sent (world s)
                                ++ [delete_request (clients_commcell_object (registry s)) id0;
                                    get_request (_CLIENTS (registry s))])%list
                             /\ exists resp0 body first code,
                                  make_request (clients_commcell_object (registry s))
                                    (sent (world s))
                                    (delete_request (clients_commcell_object (registry s))
                                       id0)
                                  = (true, resp0)
                                  /\ json resp0 = Return body
                                  /\ response_error_code body first code
                                  /\ py_eq_0 code = true)))).
  { intros r0 H. inversion H; subst. simpl. split; [reflexivity|]. right. exists id.
    split; [reflexivity|]. left. reflexivity. }
  destruct flag; [|apply Hone].
  destruct (json resp) as [body|e] eqn:Hjson; [|apply Hone].
  destruct (py_truthy body) eqn:Htruthy; [|apply Hone].
  destruct (py_contains "response" body) as [[|]|e] eqn:Hhas; [| |apply Hone].
  - destruct (py_getitem body "response") as [rs|e] eqn:Hrs; [|apply Hone].
    destruct (py_getitem_0 rs) as [first|e] eqn:Hfirst; [|apply Hone].
    destruct (py_getitem first "errorCode") as [code|e] eqn:Hcode; [|apply Hone].
    destruct (py_eq_0 code) eqn:Hzero; [|apply Hone].
    pose proof (_get_clients_world (clients_commcell_object (registry s))
                  (_CLIENTS (registry s))
                  {| sent := sent (world s)
                             ++ [delete_request (clients_commcell_object (registry s)) id];
                     clock := clock (world s) |}) as Hw.
    destruct (_get_clients _ _ _) as [[d|e] w1] eqn:Hlist; simpl in Hw; subst w1; simpl;
      intros H; inversion H; subst; simpl;
      (split; [reflexivity|]; right; exists id; split; [reflexivity|]; right;
       split; [rewrite <- app_assoc; reflexivity|];
       exists resp, body, first, code; repeat split; try assumption;
       eapply response_error_code_intro; eassumption).
  - repeat (match goal with
            | |- context [py_contains ?k ?b] => destruct (py_contains k b) as [[|]|?]
            | |- context [py_getitem ?b ?k] => destruct (py_getitem b k)
            | |- context [py_eq_0 ?c] => destruct (py_eq_0 c)
            end; simpl);
      apply Hone.
Qed.

(** X7.  What [delete] sends.  It sends nothing, or the DELETE request
    for the identifier that the mapping holds for the lowercased name,
    to the client URL with the force flag appended, or that request and
    then the GET of the listing; the second only after a reply with
    [errorCode == 0] in element 0 of [response].  The clock is not
    touched. *)
Theorem delete_requests (v : pyval) (s : Session) :
  clock (world (snd (delete v s))) = clock (world s)
  /\ (sent (world (snd (delete v s))) = sent (world s)
      \/ exists id,
           _clients (registry s) !! lower (py_str v) = Some id
           /\ (sent (world (snd (delete v s))) =
                 (sent (world s)
                  ++ [delete_request (clients_commcell_object (registry s)) id])%list
               \/ (sent (world (snd (delete v s))) =
                     (sent (world s)
                      ++ [delete_request (clients_commcell_object (registry s)) id;
                          get_request (_CLIENTS (registry s))])%list
                   /\ exists resp body first code,
                        make_request (clients_commcell_object (registry s))
                          (sent (world s))
                          (delete_request (clients_commcell_object (registry s)) id)
                          = (true, resp)
                        /\ json resp = Return body
                        /\ response_error_code body first code
                        /\ py_eq_0 code = true))).
Proof.
  destruct (delete v s) as [r s'] eqn:E. simpl.
  eapply delete_sent. exact E.
Qed.

(** ** Building a client entity *)

Lemma _get_client_properties_Return (commcell_object : Commcell) (CLIENT_url : string)
  (w w' : World) (rs : pyval * snapshot) :
  _get_client_properties commcell_object CLIENT_url w = (Return rs, w') ->
  exists resp body snap,
    make_request commcell_object (sent w) (get_request CLIENT_url) = (true, resp)
    /\ json resp = Return body
    /\ parse_client_properties body = Return snap
    /\ rs = (PyNone, snap)
    /\ w' = after_request w (get_request CLIENT_url).
Proof.
  unfold _get_client_properties, bind, request, liftR, ret, raise. simpl.
  fold (get_request CLIENT_url).
  destruct (make_request commcell_object (sent w) _) as [flag resp] eqn:Hreq. simpl.
  destruct flag; [|discriminate].
  destruct (json resp) as [body|e] eqn:Hjson; [|discriminate].
  destruct (py_truthy body);
    [destruct (py_contains "clientProperties" body) as [[|]|e]|]; try discriminate.
  destruct (parse_client_properties body) as [snap|e] eqn:Hparse; [|discriminate].
  intros H. inversion H; subst. exists resp, body, snap.
  repeat split; assumption.
Qed.

Lemma construct_with_id_snapshot (commcell_object : Commcell) (name id : string)
  (w w' : World) (c : Client) :
  construct_with_id commcell_object name id w = (Return c, w') ->
  exists resp body snap,
    make_request commcell_object (sent w) (get_request (CLIENT commcell_object id))
      = (true, resp)
    /\ json resp = Return body
    /\ parse_client_properties body = Return snap
    /\ _backup c = fst (fst (snap_flags snap))
    /\ _restore c = snd (fst (snap_flags snap))
    /\ _data_aging c = snd (snap_flags snap)
    /\ _data_recovery c = snap_data_recovery snap
    /\ _data_management c = snap_data_management snap
    /\ _online_content_index c = snap_online_content_index snap.
Proof.
  unfold construct_with_id. intros H.
  apply bind_Return in H. destruct H as (rs & w1 & Hrs & H).
  apply bind_Return in H. destruct H as (a & w2 & _ & H).
  apply bind_Return in H. destruct H as (s & w3 & _ & H).
  unfold ret in H. inversion H; subst. simpl.
  destruct (_get_client_properties_Return _ _ _ _ _ Hrs)
    as (resp & body & snap & H1 & H2 & H3 & -> & _).
  exists resp, body, snap. simpl. repeat split; assumption.
Qed.

Lemma parse_client_properties_Return (body : pyval) (snap : snapshot) :
  parse_client_properties body = Return snap ->
  exists acts recovery management content_index,
    listed_activities body = Return acts
    /\ activities_loop acts (None, None, None) = Return (snap_flags snap)
    /\ activity_control body "EnableDataRecovery" = Return recovery
    /\ activity_control body "EnableDataManagement" = Return management
    /\ activity_control body "EnableOnlineContentIndex" = Return content_index
    /\ snap_data_recovery snap = Enabled_if_True recovery
    /\ snap_data_management snap = Enabled_if_True management
    /\ snap_online_content_index snap = Enabled_if_True content_index.
Proof.
  unfold parse_client_properties, listed_activities, activity_control. intros H.
  repeat (apply rbind_Return in H;
          let x := fresh "x" in
          let E := fresh "E" in
          destruct H as (x & E & H); rewrite ?E in *; simpl in * ).
  inversion H; subst. simpl.
  eexists _, _, _, _. repeat split; try reflexivity; eassumption.
Qed.

(** Activities of other types leave a flag as it is. *)
Lemma activities_loop_frame (code : Z) (codef : float) (acts : list pyval) :
  code = 1 /\ codef = 1%float \/ code = 2 /\ codef = 2%float
  \/ code = 16 /\ codef = 16%float ->
  forall flags flags' : activity_flags,
    activities_loop acts flags = Return flags' ->
    (forall a ty, In a acts -> py_getitem a "activityType" = Return ty ->
                  py_eq_int ty code codef = false) ->
    (code = 1 -> fst (fst flags') = fst (fst flags))
    /\ (code = 2 -> snd (fst flags') = snd (fst flags))
    /\ (code = 16 -> snd flags' = snd flags).
Proof.
  intros Hcode. induction acts as [|a acts IH]; intros flags flags' H Hnone.
  - simpl in H. inversion H. auto.
  - simpl in H. destruct flags as [[b r] g].
    apply rbind_Return in H. destruct H as (ty & Ety & H).
    assert (Hty := Hnone a ty (or_introl eq_refl) Ety).
    assert (Hrest : forall a0 ty0, In a0 acts -> py_getitem a0 "activityType" = Return ty0 ->
                                   py_eq_int ty0 code codef = false).
    { intros a0 ty0 Hin. apply Hnone. right. exact Hin. }
    destruct (py_eq_int ty 1 1%float) eqn:E1.
    { apply rbind_Return in H. destruct H as (en & _ & H).
      destruct (IH _ _ H Hrest) as (I1 & I2 & I3). simpl in *.
      repeat split; auto.
      intros ->. destruct Hcode as [[_ ->] | [[Hc _] | [Hc _]]]; try discriminate Hc.
      rewrite E1 in Hty. discriminate Hty. }
    destruct (py_eq_int ty 2 2%float) eqn:E2.
    { apply rbind_Return in H. destruct H as (en & _ & H).
      destruct (IH _ _ H Hrest) as (I1 & I2 & I3). simpl in *.
      repeat split; auto.
      intros ->. destruct Hcode as [[Hc _] | [[_ ->] | [Hc _]]]; try discriminate Hc.
      rewrite E2 in Hty. discriminate Hty. }
    destruct (py_eq_int ty 16 16%float) eqn:E3.
    { apply rbind_Return in H. destruct H as (en & _ & H).
      destruct (IH _ _ H Hrest) as (I1 & I2 & I3). simpl in *.
      repeat split; auto.
      intros ->. destruct Hcode as [[Hc _] | [[Hc _] | [_ ->]]]; try discriminate Hc.
      rewrite E3 in Hty. discriminate Hty. }
    apply (IH _ _ H Hrest).
Qed.

Lemma get_with_string (construct : Commcell -> pyval -> pyval -> M World Client)
  (self : Clients) (n : string) (w : World) :
  get_with construct self (PyStr n) w =
  match _clients self !! lower n with
  | Some id => construct (clients_commcell_object self) (PyStr (lower n)) (PyStr id) w
  | None =>
      (Raise (SDKException "Client" "102"
                (Some ("No client exists with name: " +:+ lower n))), w)
  end.
Proof.
  unfold get_with. simpl. unfold bind, liftR.
  destruct (_clients self !! lower n) as [id|] eqn:E.
  - rewrite (has_client_present self (lower n) id) by (rewrite lower_idem; exact E).
    reflexivity.
  - destruct (has_client_absent self (lower n)) as (v & Hv & Hf).
    { rewrite lower_idem. exact E. }
    rewrite Hv, Hf. reflexivity.
Qed.

(** X8.  A client entity built without an identifier looks the name up
    in a registry made for the purpose.  After the listing of that
    registry: a name it does not hold makes the constructor raise
    Client/102, nothing more being sent; for a name it holds, with a
    non-empty identifier, the entity is built from the pair twice, once
    by [get] inside [_get_client_id], where only its identifier is kept,
    and once by the constructor itself, so the properties are fetched
    two times. *)
Theorem constructor_without_id (depth : nat) (commcell_object : Commcell)
  (name idv : pyval) (w w1 : World) (m : gmap string string) :
  py_truthy idv = false ->
  _get_clients commcell_object (GET_ALL_CLIENTS commcell_object) w = (Return m, w1) ->
  (m !! lower (py_str name) = None ->
   Client__init__ (S depth) commcell_object name idv w =
     (Raise (SDKException "Client" "102"
               (Some ("No client exists with name: " +:+ lower (py_str name)))), w1))
  /\ (forall id,
        m !! lower (py_str name) = Some id -> id <> EmptyString ->
        Client__init__ (S depth) commcell_object name idv w =
          (_ <- Client__init__ 0 commcell_object (PyStr (lower (py_str name))) (PyStr id);;
           Client__init__ 0 commcell_object (PyStr (lower (py_str name))) (PyStr id)) w1).
Proof.
  intros Hid Hlist.
  split; [intros Hnone | intros id Hsome Hne];
    rewrite Client__init___unfold, Hid;
    unfold bind at 1; unfold bind at 1; unfold Clients__init__; unfold bind at 1;
    rewrite Hlist; unfold ret at 1;
    unfold bind at 1; rewrite get_with_string; simpl _clients;
    simpl clients_commcell_object; rewrite !lower_idem.
  - rewrite Hnone. reflexivity.
  - rewrite Hsome.
    assert (Ht : py_truthy (PyStr id) = true).
    { simpl. destruct id; [contradiction Hne; reflexivity | reflexivity]. }
    rewrite !(Client__init___with_id _ _ _ _ Ht). simpl py_str. rewrite lower_idem.
    unfold bind, ret.
    destruct (construct_with_id commcell_object (lower (py_str name)) id w1)
      as [[c0|e] w2] eqn:E; [|reflexivity].
    apply construct_with_id_Return in E. destruct E as (_ & -> & _). reflexivity.
Qed.

(** X9.  How building an entity with a given identifier fails on the
    reply to its one property request, which is always sent.  A failed
    transport raises Response/101; a decoded body that is empty, or in
    which [clientProperties] is not found, raises Response/102; an empty
    [clientProperties] array raises [IndexError], and a first element
    without [client] raises [KeyError], neither being an SDK exception. *)
Theorem constructor_failures (depth : nat) (commcell_object : Commcell)
  (name idv : pyval) (w : World) (flag : bool) (resp : Response) :
  py_truthy idv = true ->
  make_request commcell_object (sent w)
    (get_request (CLIENT commcell_object (py_str idv))) = (flag, resp) ->
  (flag = false ->
   Client__init__ depth commcell_object name idv w =
     (Raise (SDKException "Response" "101"
               (Some (_update_response_ commcell_object (text resp)))),
      after_request w (get_request (CLIENT commcell_object (py_str idv)))))
  /\ (forall body,
        flag = true -> json resp = Return body ->
        py_truthy body = false \/ py_contains "clientProperties" body = Return false ->
        Client__init__ depth commcell_object name idv w =
          (Raise (SDKException "Response" "102" None),
           after_request w (get_request (CLIENT commcell_object (py_str idv)))))
  /\ (forall body,
        flag = true -> json resp = Return body ->
        has_field body "clientProperties" (PyList []) ->
        Client__init__ depth commcell_object name idv w =
          (Raise IndexError,
           after_request w (get_request (CLIENT commcell_object (py_str idv)))))
  /\ (forall body first rest,
        flag = true -> json resp = Return body ->
        has_field body "clientProperties" (PyList (first :: rest)) ->
        lacks_field first "client" ->
        Client__init__ depth commcell_object name idv w =
          (Raise (KeyError (PyStr "client")),
           after_request w (get_request (CLIENT commcell_object (py_str idv))))).
Proof.
  intros Hid Hreq.
  rewrite (Client__init___with_id depth _ _ _ Hid).
  unfold construct_with_id. unfold bind at 1.
  unfold _get_client_properties, bind, request, liftR, ret, raise. simpl.
  fold (get_request (CLIENT commcell_object (py_str idv))). rewrite Hreq. simpl.
  split; [|split; [|split]].
  - intros ->. reflexivity.
  - intros body -> Hj H. rewrite Hj. destruct (py_truthy body).
    + destruct H as [H | H]; [discriminate H|]. rewrite H. reflexivity.
    + reflexivity.
  - intros body -> Hj H. rewrite Hj.
    assert (Hb : py_truthy body = true).
    { destruct H as (fields & -> & E). destruct fields; [discriminate E | reflexivity]. }
    rewrite Hb, (has_field_contains _ _ _ H).
    unfold parse_client_properties. rewrite (has_field_getitem _ _ _ H). reflexivity.
  - intros body first rest -> Hj H Hlacks. rewrite Hj.
    assert (Hb : py_truthy body = true).
    { destruct H as (fields & -> & E). destruct fields; [discriminate E | reflexivity]. }
    rewrite Hb, (has_field_contains _ _ _ H).
    unfold parse_client_properties. rewrite (has_field_getitem _ _ _ H). simpl.
    destruct Hlacks as (fields & -> & E). simpl. rewrite E. reflexivity.
Qed.

(** X10.  An activity flag is assigned only when the property document
    lists an activity of its type: in an entity built with a given
    identifier, [_backup] is unset when no listed activity has a type
    equal to 1, [_restore] when none has a type equal to 2, and
    [_data_aging] when none has a type equal to 16. *)
Theorem unlisted_activity_leaves_flag_unset (depth : nat) (commcell_object : Commcell)
  (name idv : pyval) (w w' : World) (c : Client) (resp : Response) (body : pyval)
  (acts : list pyval) :
  py_truthy idv = true ->
  Client__init__ depth commcell_object name idv w = (Return c, w') ->
  make_request commcell_object (sent w)
    (get_request (CLIENT commcell_object (py_str idv))) = (true, resp) ->
  json resp = Return body ->
  listed_activities body = Return acts ->
  ((forall a ty, In a acts -> py_getitem a "activityType" = Return ty ->
                 py_eq_int ty 1 1%float = false) ->
   _backup c = None)
  /\ ((forall a ty, In a acts -> py_getitem a "activityType" = Return ty ->
                    py_eq_int ty 2 2%float = false) ->
      _restore c = None)
  /\ ((forall a ty, In a acts -> py_getitem a "activityType" = Return ty ->
                    py_eq_int ty 16 16%float = false) ->
      _data_aging c = None).
Proof.
  intros Hid Hc Hreq Hj Hacts.
  rewrite (Client__init___with_id depth _ _ _ Hid) in Hc.
  destruct (construct_with_id_snapshot _ _ _ _ _ _ Hc)
    as (resp' & body' & snap & H1 & H2 & H3 & Hb & Hr & Hg & _).
  rewrite Hreq in H1. inversion H1; subst resp'.
  rewrite Hj in H2. inversion H2; subst body'.
  destruct (parse_client_properties_Return _ _ H3)
    as (acts' & ? & ? & ? & Hacts' & Hloop & _).
  rewrite Hacts in Hacts'. inversion Hacts'; subst acts'.
  rewrite Hb, Hr, Hg.
  split; [|split]; intros Hnone.
  - apply (activities_loop_frame 1 1%float acts (or_introl (conj eq_refl eq_refl))
             _ _ Hloop Hnone). reflexivity.
  - apply (activities_loop_frame 2 2%float acts
             (or_intror (or_introl (conj eq_refl eq_refl))) _ _ Hloop Hnone). reflexivity.
  - apply (activities_loop_frame 16 16%float acts
             (or_intror (or_intror (conj eq_refl eq_refl))) _ _ Hloop Hnone). reflexivity.
Qed.

(** X11.  The three switches of an entity are read with [is True]: a
    switch is [Enabled] exactly when the document holds the boolean true
    for it, and [Disabled] for any other value, a truthy one such as 1
    included. *)
Theorem switch_enabled_only_for_true (depth : nat) (commcell_object : Commcell)
  (name idv : pyval) (w w' : World) (c : Client) (resp : Response) (body : pyval)
  (recovery management content_index : pyval) :
  py_truthy idv = true ->
  Client__init__ depth commcell_object name idv w = (Return c, w') ->
  make_request commcell_object (sent w)
    (get_request (CLIENT commcell_object (py_str idv))) = (true, resp) ->
  json resp = Return body ->
  activity_control body "EnableDataRecovery" = Return recovery ->
  activity_control body "EnableDataManagement" = Return management ->
  activity_control body "EnableOnlineContentIndex" = Return content_index ->
  (_data_recovery c = "Enabled" <-> recovery = PyBool true)
  /\ (_data_recovery c = "Disabled" <-> recovery <> PyBool true)
  /\ (_data_management c = "Enabled" <-> management = PyBool true)
  /\ (_data_management c = "Disabled" <-> management <> PyBool true)
  /\ (_online_content_index c = "Enabled" <-> content_index = PyBool true)
  /\ (_online_content_index c = "Disabled" <-> content_index <> PyBool true).
Proof.
  intros Hid Hc Hreq Hj Hr Hm Hi.
  rewrite (Client__init___with_id depth _ _ _ Hid) in Hc.
  destruct (construct_with_id_snapshot _ _ _ _ _ _ Hc)
    as (resp' & body' & snap & H1 & H2 & H3 & _ & _ & _ & Er & Em & Ei).
  rewrite Hreq in H1. inversion H1; subst resp'.
  rewrite Hj in H2. inversion H2; subst body'.
  destruct (parse_client_properties_Return _ _ H3)
    as (acts & r' & m' & i' & _ & _ & Hr' & Hm' & Hi' & Sr & Sm & Si).
  rewrite Hr in Hr'. inversion Hr'; subst r'.
  rewrite Hm in Hm'. inversion Hm'; subst m'.
  rewrite Hi in Hi'. inversion Hi'; subst i'.
  rewrite Er, Em, Ei, Sr, Sm, Si.
  assert (E : forall v : pyval,
            (Enabled_if_True v = "Enabled" <-> v = PyBool true)
            /\ (Enabled_if_True v = "Disabled" <-> v <> PyBool true)).
  { intros v. unfold Enabled_if_True.
    destruct v as [ | [|] | | | | | ]; simpl; repeat split;
      try discriminate; try reflexivity; try congruence. }
  destruct (E recovery), (E management), (E content_index). auto 10.
Qed.

(** X12.  An empty recorded identifier sends the constructor back to the
    listing.  On a server whose listing always returns a mapping that
    holds the name with the empty identifier, building the entity
    without an identifier ends in [RecursionError], at whatever depth the
    nesting of constructor calls is cut. *)
Theorem empty_identifier_recurses (commcell_object : Commcell) (m : gmap string string)
  (name : pyval) :
  (forall w, exists w1,
     _get_clients commcell_object (GET_ALL_CLIENTS commcell_object) w = (Return m, w1)) ->
  m !! lower (py_str name) = Some EmptyString ->
  forall (depth : nat) (idv : pyval) (w : World),
    py_truthy idv = false ->
    fst (Client__init__ depth commcell_object name idv w) = Raise RecursionError.
Proof.
  intros Hlist Hm depth.
  assert (G : forall (nm idv : pyval) (w : World),
            lower (py_str nm) = lower (py_str name) -> py_truthy idv = false ->
            fst (Client__init__ depth commcell_object nm idv w) = Raise RecursionError).
  { induction depth as [|depth IH]; intros nm idv w Hnm Hid;
      rewrite Client__init___unfold, Hid.
    - reflexivity.
    - unfold bind at 1. unfold bind at 1. unfold Clients__init__. unfold bind at 1.
      destruct (Hlist w) as (w1 & ->). unfold ret at 1.
      unfold bind at 1. rewrite get_with_string. simpl _clients.
      simpl clients_commcell_object. rewrite !lower_idem, Hnm, Hm.
      specialize (IH (PyStr (lower (py_str name))) (PyStr EmptyString) w1
                    ltac:(simpl; apply lower_idem) eq_refl).
      destruct (Client__init__ depth commcell_object (PyStr (lower (py_str name)))
                  (PyStr EmptyString) w1) as [[c|e] w2]; simpl in IH.
      + discriminate IH.
      + inversion IH; subst. reflexivity. }
  intros idv w Hid. apply G; [reflexivity | exact Hid].
Qed.

(** ** The activity operations, request by request *)

Lemma check_enable_time_mktime_raises (ts : string) (t : struct_time) (e : exn)
  (w : World) :
  time_strptime ts time_format = Some t ->
  time_mktime t = Raise e ->
  check_enable_time (PyStr ts) w =
  match e with
  | ValueError => (Raise (SDKException "Client" "104" None), w)
  | _ => (Raise e, w)
  end.
Proof.
  intros H1 H2.
  unfold check_enable_time, try_except_ValueError, bind, raise, ret, liftR, time_time.
  rewrite H1, H2. destruct e; reflexivity.
Qed.

(** X13.  What else the validation of a scheduled time raises, nothing
    being sent in any of the cases: a time that is no string raises
    [TypeError]; a [ValueError] of [time.mktime] is caught like one of
    [time.strptime] and becomes Client/104, though the time did parse;
    any other exception of [time.mktime] leaves the operation as it is. *)
Theorem enable_time_errors (self : Client) (a : activity) (w : World) :
  (forall t, isinstance_str t = false ->
             call self (EnableAtTime a t) w = (Raise TypeError, w))
  /\ (forall ts t,
        time_strptime ts time_format = Some t ->
        time_mktime t = Raise ValueError ->
        call self (EnableAtTime a (PyStr ts)) w
          = (Raise (SDKException "Client" "104" None), w))
  /\ (forall ts t e,
        time_strptime ts time_format = Some t ->
        time_mktime t = Raise e ->
        e <> ValueError ->
        call self (EnableAtTime a (PyStr ts)) w = (Raise e, w)).
Proof.
  split; [|split].
  - intros t Ht. apply call_rejected.
    unfold check_enable_time, try_except_ValueError, bind, raise.
    destruct t; try reflexivity. discriminate Ht.
  - intros ts t H1 H2. apply call_rejected.
    rewrite (check_enable_time_mktime_raises ts t ValueError w H1 H2). reflexivity.
  - intros ts t e H1 H2 Hne. apply call_rejected.
    rewrite (check_enable_time_mktime_raises ts t e w H1 H2).
    destruct e; try reflexivity. contradiction Hne. reflexivity.
Qed.

Lemma activity_response_world (commcell_object : Commcell) (failure : string)
  (fr : bool * Response) (w : World) :
  snd (activity_response commcell_object failure fr w) = w.
Proof.
  destruct fr as [flag resp].
  unfold activity_response, bind, liftR, ret, raise. simpl.
  destruct flag; [|reflexivity].
  destruct (json resp) as [body|e]; [|reflexivity].
  destruct (py_truthy body);
    [destruct (py_contains "response" body) as [[|]|e]|]; try reflexivity.
  destruct (py_getitem body "response") as [rs|e]; [|reflexivity].
  destruct (py_getitem_0 rs) as [first|e]; [|reflexivity].
  destruct (py_getitem first "errorCode") as [code|e]; [|reflexivity].
  destruct (py_eq_0 code); [reflexivity|].
  destruct (py_contains "errorMessage" first) as [[|]|e]; try reflexivity.
  destruct (py_getitem first "errorMessage"); reflexivity.
Qed.

Lemma submit_world (self : Client) (a : activity) (enable enable_time : pyval)
  (failure : string) (w : World) :
  exists doc,
    _request_json_ self (activity_name a) enable enable_time = Return doc
    /\ snd (submit self (activity_name a) enable enable_time failure w)
       = after_request w (post_request self doc).
Proof.
  destruct (submit_run self a enable enable_time failure w) as (doc & Hdoc & E).
  exists doc. split; [exact Hdoc|]. rewrite E. apply activity_response_world.
Qed.

(** X14.  A validated activity operation sends one request whatever the
    reply: a POST to the URL of the client, whose document names the
    client and has one option record.  The record of an enabling holds
    the activity code, no delay and true; that of a disabling the code,
    no delay and false; that of a scheduled enabling the code, the delay,
    false, and the time as it was given, under the UTC zone. *)
Theorem operation_sends_one_post (self : Client) (op : activity_op) (w : World) :
  validated op w ->
  exists doc,
    snd (call self op w) = after_request w (post_request self doc)
    /\ association_name doc = Return (PyStr (client_name self))
    /\ match op with
       | Enable a =>
           option_records doc =
             Return (PyList [PyDict [("activityType", PyInt (activity_code a));
                                     ("enableAfterADelay", PyBool false);
                                     ("enableActivityType", PyBool true)]])
       | Disable a =>
           option_records doc =
             Return (PyList [PyDict [("activityType", PyInt (activity_code a));
                                     ("enableAfterADelay", PyBool false);
                                     ("enableActivityType", PyBool false)]])
       | EnableAtTime a t =>
           py_truthy t = true ->
           option_records doc =
             Return (PyList [PyDict [("activityType", PyInt (activity_code a));
                                     ("enableAfterADelay", PyBool true);
                                     ("enableActivityType", PyBool false);
                                     ("dateTime",
                                       PyDict [("TimeZoneName", PyStr UTC_zone);
                                               ("timeValue", t)])]])
       end.
Proof.
  intros Hv. rewrite call_unfold. destruct op as [a | a t | a].
  - destruct (submit_world self a (PyBool true) PyNone
                ("Failed to " +:+ operation_name (Enable a)) w) as (doc & Hdoc & E).
    exists doc. split; [exact E|].
    destruct a; simpl in Hdoc; inversion Hdoc; subst; split; reflexivity.
  - destruct (submit_world self a (PyBool false) t
                ("Failed to " +:+ operation_name (EnableAtTime a t)) w) as (doc & Hdoc & E).
    exists doc. simpl in Hv. unfold bind at 1. rewrite Hv.
    split; [exact E|].
    unfold _request_json_ in Hdoc.
    destruct a; simpl in Hdoc; destruct (py_truthy t); inversion Hdoc; subst;
      (split; [reflexivity | intros Ht; first [reflexivity | discriminate Ht]]).
  - destruct (submit_world self a (PyBool false) PyNone
                ("Failed to " +:+ operation_name (Disable a)) w) as (doc & Hdoc & E).
    exists doc. split; [exact E|].
    destruct a; simpl in Hdoc; inversion Hdoc; subst; split; reflexivity.
Qed.

(** ** The request builder on other options *)

(** X15.  The builder knows three options.  For any other option name
    it raises [KeyError] with that name, whatever the flag and the time. *)
Theorem request_json_unknown_option (self : Client) (opt : string)
  (enable enable_time : pyval) :
  opt <> "Backup" -> opt <> "Restore" -> opt <> "Data Aging" ->
  _request_json_ self opt enable enable_time = Raise (KeyError (PyStr opt)).
Proof.
  intros H1 H2 H3. unfold _request_json_, options_dict, py_getitem.
  cbn [dict_get].
  rewrite (proj2 (String.eqb_neq "Backup" opt)) by (intros E; apply H1; auto).
  rewrite (proj2 (String.eqb_neq "Restore" opt)) by (intros E; apply H2; auto).
  rewrite (proj2 (String.eqb_neq "Data Aging" opt)) by (intros E; apply H3; auto).
  reflexivity.
Qed.

(** ** The attributes of a built entity *)

Lemma construct_with_id_fields (commcell_object : Commcell) (name id : string)
  (w w' : World) (c : Client) :
  construct_with_id commcell_object name id w = (Return c, w') ->
  _commcell_object c = commcell_object
  /\ _client_name c = name
  /\ _client_id c = id
  /\ _CLIENT c = CLIENT commcell_object id.
Proof.
  unfold construct_with_id. intros H.
  apply bind_Return in H. destruct H as (rs & w1 & _ & H).
  apply bind_Return in H. destruct H as (a & w2 & _ & H).
  apply bind_Return in H. destruct H as (s & w3 & _ & H).
  unfold ret in H. inversion H; subst. simpl. repeat split.
Qed.

(** X16.  Whatever the letter case of the name and whether or not an
    identifier is given, an entity that the constructor returns has the
    lowercased [str] of the name as its name, the client URL of its
    identifier as its URL, and the commcell object it was given; a given
    identifier that is truthy is kept, as its [str]. *)
Theorem built_entity_attributes (depth : nat) (commcell_object : Commcell)
  (name idv : pyval) (w w' : World) (c : Client) :
  Client__init__ depth commcell_object name idv w = (Return c, w') ->
  client_name c = lower (py_str name)
  /\ lower (client_name c) = client_name c
  /\ _CLIENT c = CLIENT commcell_object (client_id c)
  /\ _commcell_object c = commcell_object
  /\ (py_truthy idv = true -> client_id c = py_str idv).
Proof.
  intros H. rewrite Client__init___unfold in H.
  apply bind_Return in H. destruct H as (id & w1 & Hid & H).
  destruct (construct_with_id_fields _ _ _ _ _ _ H) as (F1 & F2 & F3 & F4).
  unfold client_name, client_id. rewrite F1, F2, F3, F4.
  repeat split; try apply lower_idem.
  intros Ht. rewrite Ht in Hid. unfold ret in Hid. inversion Hid. reflexivity.
Qed.

End MoreProperties.

(** * The properties on the concrete setting *)

(** C1 on the setting.  The picky server reads the posted document: it
    accepts the enabling of backup and denies its disabling.  Another
    server answers with an empty object, a third fails in the transport. *)
Lemma activity_response_contract_witness :
  fst (@call utc_host (client_of picky_server) (Enable Backup) (world_at 0)) = Return tt
  /\ fst (@call utc_host (client_of picky_server) (Disable Backup) (world_at 0)) =
       Raise (SDKException "Client" "102"
                (Some ("Failed to disable Backup" +:+ newline +:+ "Error: "
                       +:+ dquote +:+ "denied" +:+ dquote)))
  /\ fst (@call utc_host (client_of empty_server) (Disable Backup) (world_at 0)) =
       Raise (SDKException "Response" "102" None)
  /\ fst (@call utc_host (client_of failing_server) (Disable Backup) (world_at 0)) =
       Raise (SDKException "Response" "101" (Some "server text")).
Proof.
  split; [|split; [|split]].
  - edestruct (@activity_response_contract utc_host (client_of picky_server)
                 (Enable Backup) (world_at 0)) as (H & _);
      [exact I | reflexivity | reflexivity |].
    apply (H (error_body 0) (PyDict [("errorCode", PyInt 0)]) (PyInt 0));
      try reflexivity.
    exists [("response", PyList [PyDict [("errorCode", PyInt 0)]])], [],
      [("errorCode", PyInt 0)].
    repeat split.
  - edestruct (@activity_response_contract utc_host (client_of picky_server)
                 (Disable Backup) (world_at 0)) as (_ & H & _);
      [exact I | reflexivity | reflexivity |].
    apply (H denied_body
             (PyDict [("errorCode", PyInt 5); ("errorMessage", PyStr "denied")])
             (PyInt 5) (PyStr "denied"));
      try reflexivity.
    + exists [("response",
               PyList [PyDict [("errorCode", PyInt 5); ("errorMessage", PyStr "denied")]])],
        [], [("errorCode", PyInt 5); ("errorMessage", PyStr "denied")].
      repeat split.
    + exists [("errorCode", PyInt 5); ("errorMessage", PyStr "denied")]. repeat split.
  - edestruct (@activity_response_contract utc_host (client_of empty_server)
                 (Disable Backup) (world_at 0)) as (_ & _ & H & _);
      [exact I | reflexivity | reflexivity |].
    apply (H (PyDict [])); try reflexivity. left. reflexivity.
  - edestruct (@activity_response_contract utc_host (client_of failing_server)
                 (Disable Backup) (world_at 0)) as (_ & _ & _ & _ & H);
      [exact I | reflexivity | reflexivity |].
    apply H; reflexivity.
Defined.

(** C9 on the setting: error code 5 with no message, and a validated
    [enable_data_aging_at_time] returns. *)
Lemma silent_on_error_without_message_witness :
  fst (@call utc_host (client_of terse_server)
         (EnableAtTime DataAging (PyStr new_year_2030)) (world_at 0)) = Return tt.
Proof.
  eapply (@silent_on_error_without_message utc_host (client_of terse_server)
            (EnableAtTime DataAging (PyStr new_year_2030)) (world_at 0) _
            (snd (reply true (error_body 5)))
            (error_body 5) (PyDict [("errorCode", PyInt 5)]) (PyInt 5)).
  - reflexivity.
  - reflexivity.
  - reflexivity.
  - reflexivity.
  - exists [("response", PyList [PyDict [("errorCode", PyInt 5)]])], [],
      [("errorCode", PyInt 5)].
    repeat split.
  - reflexivity.
  - exists [("errorCode", PyInt 5)]. repeat split.
Defined.



(** C3 on the setting: a document for a scheduled enabling of backup. *)
Lemma request_json_shape_witness :
  exists doc,
    @_request_json_ utc_host (client_of quiet_server) "Backup" (PyBool true)
      (PyStr new_year_2030) = Return doc
    /\ option_records doc =
       Return (PyList [PyDict [("activityType", PyInt 1);
                               ("enableAfterADelay", PyBool true);
                               ("enableActivityType", PyBool false);
                               ("dateTime",
                                 PyDict [("TimeZoneName", PyStr UTC_zone);
                                         ("timeValue", PyStr new_year_2030)])]]).
Proof.
  apply (proj2 (@request_json_shape utc_host (client_of quiet_server) Backup true)
           new_year_2030).
  discriminate.
Defined.

(** C4 on the setting, half a second past midnight of the first of
    January 2030: text that is no time raises Client/104, midnight raises
    Client/103, and nothing is sent. *)
Lemma enable_at_time_validation_witness :
  @call utc_host (client_of quiet_server) (EnableAtTime Backup (PyStr "tomorrow"))
    (world_at 1893456000.5)
    = (Raise (SDKException "Client" "104" None), world_at 1893456000.5)
  /\ @call utc_host (client_of quiet_server) (EnableAtTime Backup (PyStr new_year_2030))
       (world_at 1893456000.5)
     = (Raise (SDKException "Client" "103" None), world_at 1893456000.5).
Proof.
  split.
  - apply (proj1 (@enable_at_time_validation utc_host (client_of quiet_server) Backup
                    "tomorrow" (world_at 1893456000.5))).
    reflexivity.
  - apply (proj1 (proj2 (@enable_at_time_validation utc_host (client_of quiet_server)
                           Backup new_year_2030 (world_at 1893456000.5)))
             {| tm_year := 2030; tm_mon := 1; tm_mday := 1;
                tm_hour := 0; tm_min := 0; tm_sec := 0 |} 1893456000%float);
      reflexivity.
Defined.

(** C4 fails as stated: when the current time is the very instant of the
    given time, which is then not strictly in the future, the operation
    raises nothing and sends its request. *)
Lemma instant_equal_to_now_is_accepted :
  option_map utc_mktime (utc_strptime new_year_2030 time_format)
    = Some (Return 1893456000%float)
  /\ PrimFloat.ltb (clock (world_at 1893456000)) 1893456000%float = false
  /\ fst (@call utc_host (client_of quiet_server) (EnableAtTime Backup (PyStr new_year_2030))
            (world_at 1893456000)) = Return tt
  /\ length (sent (snd (@call utc_host (client_of quiet_server)
                          (EnableAtTime Backup (PyStr new_year_2030))
                          (world_at 1893456000)))) = 1%nat.
Proof. split; [|split; [|split]]; vm_compute; reflexivity. Qed.

(** C5 on the setting: [ClientA] and its uppercase form. *)
Lemma has_client_case_insensitive_ascii_witness :
  unicode_upper "ClientA" = Some "CLIENTA"
  /\ @has_client utc_host (registry_of quiet_server) (PyStr "ClientA")
     = @has_client utc_host (registry_of quiet_server) (PyStr "CLIENTA").
Proof.
  destruct (@has_client_case_insensitive_ascii utc_host (registry_of quiet_server)
              "ClientA" eq_refl) as (H1 & H2 & _).
  split; [exact H1 | exact H2].
Defined.

(** C5 fails as stated: the uppercase form of the sharp s is SS.  The
    registry of a server that lists a client of that name holds the name
    as it is, its own lowercase; [has_client] is true of the name and
    false of its uppercase form, whose lowercase is ss. *)
Lemma sharp_s_is_not_found_in_uppercase :
  unicode_upper sharp_s = Some "SS"
  /\ fst (@Clients__init__ utc_host sharp_server (world_at 0)) = Return sharp_registry
  /\ @has_client utc_host sharp_registry (PyStr sharp_s) = Return (HasBool true)
  /\ @has_client utc_host sharp_registry (PyStr "SS") = Return (HasBool false).
Proof. split; [|split; [|split]]; vm_compute; reflexivity. Qed.

(** C6 on the setting: the registry lists [clienta] with identifier 5, and
    [get] of [ClientA] returns the entity of that identifier. *)
Lemma get_constructs_listed_entity_witness :
  fst (@get utc_host plain_wrappers 0 (registry_of quiet_server) (PyStr "ClientA")
         (world_at 0)) = Return (client_of quiet_server)
  /\ @client_id utc_host (client_of quiet_server) = "5".
Proof.
  destruct (proj1 (@get_constructs_listed_entity utc_host plain_wrappers 0
                     (registry_of quiet_server) "ClientA" (world_at 0))
              "5" (client_of quiet_server)
              (after_request (world_at 0)
                 {| method := "GET"; url := "/Client/5"; payload := None |})
              eq_refl ltac:(discriminate) eq_refl) as (Hget & Hid & _).
  split.
  - rewrite Hget. reflexivity.
  - exact Hid.
Defined.

(** C7 on the setting: the mapping of a new registry. *)
Lemma clients_keys_lowercase_witness :
  lowercase_keys ({[ "clienta" := "5" ]} : gmap string string).
Proof.
  apply (proj1 (proj2 (@clients_keys_lowercase utc_host)) quiet_server (world_at 0)
           (registry_of quiet_server)
           (after_request (world_at 0)
              {| method := "GET"; url := "/Client"; payload := None |})).
  reflexivity.
Defined.

(** C8 on the setting: a [delete] that fails in the transport. *)
Lemma failing_call_keeps_cache_witness :
  _clients (registry (snd (@run utc_host (OpDelete (PyStr "ClientA"))
                             (session_of failing_server))))
  = _clients (registry (session_of failing_server)).
Proof.
  destruct (@run utc_host (OpDelete (PyStr "ClientA")) (session_of failing_server))
    as [r s'] eqn:E.
  destruct (@failing_call_keeps_cache utc_host _ _ _ _ E) as (H & _).
  vm_compute in E. inversion E; subst.
  eapply H. reflexivity.
Defined.

(** C10 on the setting: the entity built for [ClientA]. *)
Lemma properties_is_None_witness :
  @properties utc_host (client_of quiet_server) = PyNone.
Proof.
  apply (@properties_is_None utc_host plain_wrappers 0 quiet_server
           (PyStr "ClientA") (PyStr "5") (world_at 0)
           (after_request (world_at 0)
              {| method := "GET"; url := "/Client/5"; payload := None |})).
  reflexivity.
Defined.

(** * More of the module on the concrete setting *)

(** X1 on the setting: the integer 5 as a name. *)
Lemma non_string_name_rejected_witness :
  @has_client utc_host (registry_of quiet_server) (PyInt 5)
    = Raise (SDKException "Client" "101" None)
  /\ @get utc_host plain_wrappers 0 (registry_of quiet_server) (PyInt 5) (world_at 0)
     = (Raise (SDKException "Client" "101" None), world_at 0)
  /\ @delete utc_host (PyInt 5) (session_of quiet_server)
     = (Raise (SDKException "Client" "101" None), session_of quiet_server).
Proof.
  apply (@non_string_name_rejected utc_host plain_wrappers 0 (registry_of quiet_server)
           (PyInt 5) (world_at 0) (session_of quiet_server)).
  reflexivity.
Defined.

(** X2 on the setting: the listing of a server that has forgotten its
    client. *)
Lemma listing_outcomes_witness :
  fst (@_get_clients utc_host forgetful_server "/Client"
         (after_request (world_at 0) (delete_request forgetful_server "5")))
  = Return ∅.
Proof.
  destruct (@listing_outcomes utc_host forgetful_server "/Client"
              (after_request (world_at 0) (delete_request forgetful_server "5"))
              true (snd (reply true (listing_of []))) eq_refl) as (_ & _ & _ & H).
  apply (H (listing_of [])); try reflexivity.
  exists [("clientProperties", PyList [])]. split; reflexivity.
Defined.

(** X3 on the setting: of [ClientA] with 5 and [CLIENTA] with 7, the
    second is kept. *)
Lemma listing_last_entry_wins_witness :
  ({[ "clienta" := "7" ]} : gmap string string) !! "clienta" = Some "7".
Proof.
  apply (@listing_last_entry_wins utc_host twin_server "/Client" (world_at 0)
           (after_request (world_at 0) (get_request "/Client"))
           {[ "clienta" := "7" ]}
           (snd (reply true (listing_of [listed_client "ClientA" (PyInt 5);
                                         listed_client "CLIENTA" (PyInt 7)])))
           (listing_of [listed_client "ClientA" (PyInt 5);
                        listed_client "CLIENTA" (PyInt 7)])
           (PyList [listed_client "ClientA" (PyInt 5); listed_client "CLIENTA" (PyInt 7)])
           [listed_client "ClientA" (PyInt 5)] []
           (listed_client "CLIENTA" (PyInt 7)) (PyStr "CLIENTA") (PyInt 7));
    try reflexivity.
  intros e n [].
Defined.

(** X4 on the setting: [CLIENTa] exists in the registry of the server
    that lists [clientA]. *)
Lemma listed_names_exist_witness :
  @has_client utc_host (registry_of quiet_server) (PyStr "CLIENTa")
    = Return (HasBool true).
Proof.
  apply (proj2 (@listed_names_exist utc_host quiet_server (world_at 0)
                  (after_request (world_at 0) (get_request "/Client"))
                  (registry_of quiet_server)
                  (snd (reply true listing_body)) listing_body
                  (PyList [listed_client "clientA" (PyInt 5)])
                  [listed_client "clientA" (PyInt 5)] "CLIENTa"
                  eq_refl eq_refl eq_refl eq_refl eq_refl)).
  exists (listed_client "clientA" (PyInt 5)), (PyStr "clientA").
  split; [left; reflexivity | split; reflexivity].
Defined.

(** X5 on the setting: after its deletion on the forgetful server,
    [ClientA] no longer exists. *)
Lemma delete_refreshes_cache_witness :
  fst (@delete utc_host (PyStr "ClientA") (session_of forgetful_server)) = Return tt
  /\ _clients (registry (snd (@delete utc_host (PyStr "ClientA")
                                (session_of forgetful_server)))) = ∅
  /\ exists v,
       @has_client utc_host
         (registry (snd (@delete utc_host (PyStr "ClientA") (session_of forgetful_server))))
         (PyStr "ClientA") = Return v
       /\ has_client_truthy v = false.
Proof.
  destruct (@delete_refreshes_cache utc_host "ClientA" "5" (session_of forgetful_server)
              (snd ok_reply) (error_body 0) (PyDict [("errorCode", PyInt 0)]) (PyInt 0)
              ∅
              (after_request
                 (after_request (world_at 0) (delete_request forgetful_server "5"))
                 (get_request "/Client")))
    as (H1 & H2 & _ & H4); try reflexivity.
  - exists [("response", PyList [PyDict [("errorCode", PyInt 0)]])], [],
      [("errorCode", PyInt 0)].
    repeat split.
  - split; [exact H1|]. split; [exact H2|]. apply H4. reflexivity.
Defined.

(** X6 on the setting: the listing fails after the deletion, and
    [ClientA] still exists in the registry. *)
Lemma delete_keeps_stale_name_witness :
  fst (@delete utc_host (PyStr "ClientA") (session_of vanishing_server))
    = Raise (SDKException "Response" "101" (Some "server text"))
  /\ @has_client utc_host
       (registry (snd (@delete utc_host (PyStr "ClientA") (session_of vanishing_server))))
       (PyStr "ClientA") = Return (HasBool true).
Proof.
  destruct (@delete_keeps_stale_name utc_host "ClientA" "5" (session_of vanishing_server)
              (snd ok_reply) (error_body 0) (PyDict [("errorCode", PyInt 0)]) (PyInt 0)
              (SDKException "Response" "101" (Some "server text"))
              (after_request
                 (after_request (world_at 0) (delete_request vanishing_server "5"))
                 (get_request "/Client")))
    as (H1 & _ & H3 & _); try reflexivity.
  - exists [("response", PyList [PyDict [("errorCode", PyInt 0)]])], [],
      [("errorCode", PyInt 0)].
    repeat split.
  - split; [exact H1 | exact H3].
Defined.

(** X8 on the setting: [Client(commcell, 'ClientA')] sends the listing
    and the property request twice, and has identifier 5. *)
Lemma constructor_without_id_witness :
  @Client__init__ utc_host plain_wrappers 1 quiet_server (PyStr "ClientA") PyNone
    (world_at 0)
  = (Return (client_of quiet_server),
     {| sent := [get_request "/Client"; get_request "/Client/5"; get_request "/Client/5"];
        clock := 0%float |}).
Proof.
  pose proof (proj2 (@constructor_without_id utc_host plain_wrappers 0 quiet_server
                       (PyStr "ClientA") PyNone (world_at 0)
                       (after_request (world_at 0) (get_request "/Client"))
                       {[ "clienta" := "5" ]} eq_refl eq_refl) "5") as H.
  rewrite H.
  - reflexivity.
  - reflexivity.
  - discriminate.
Defined.

(** X9 on the setting: a property document with an empty array. *)
Lemma constructor_failures_witness :
  @Client__init__ utc_host plain_wrappers 0 hollow_server (PyStr "ClientA") (PyStr "5")
    (world_at 0)
  = (Raise IndexError, after_request (world_at 0) (get_request "/Client/5")).
Proof.
  destruct (@constructor_failures utc_host plain_wrappers 0 hollow_server
              (PyStr "ClientA") (PyStr "5") (world_at 0) true
              (snd (reply true (listing_of []))) eq_refl eq_refl) as (_ & _ & H & _).
  apply (H (listing_of [])); try reflexivity.
  exists [("clientProperties", PyList [])]. split; reflexivity.
Defined.

(** X10 on the setting: the property document lists activities 1 and 2
    only, and [_data_aging] of the entity is unset. *)
Lemma unlisted_activity_leaves_flag_unset_witness :
  @_data_aging utc_host (client_of quiet_server) = None.
Proof.
  destruct (@unlisted_activity_leaves_flag_unset utc_host plain_wrappers 0 quiet_server
              (PyStr "ClientA") (PyStr "5") (world_at 0)
              (after_request (world_at 0) (get_request "/Client/5"))
              (client_of quiet_server) (snd (reply true properties_body)) properties_body
              [PyDict [("activityType", PyInt 1); ("enableActivityType", PyBool true)];
               PyDict [("activityType", PyInt 2); ("enableActivityType", PyBool false)]]
              eq_refl eq_refl eq_refl eq_refl eq_refl) as (_ & _ & H).
  apply H. intros a ty [<- | [<- | []]] Hty; inversion Hty; reflexivity.
Defined.

(** X11 on the setting: data recovery is true in the document, the
    content index false. *)
Lemma switch_enabled_only_for_true_witness :
  @_data_recovery utc_host (client_of quiet_server) = "Enabled"
  /\ @_online_content_index utc_host (client_of quiet_server) = "Disabled".
Proof.
  destruct (@switch_enabled_only_for_true utc_host plain_wrappers 0 quiet_server
              (PyStr "ClientA") (PyStr "5") (world_at 0)
              (after_request (world_at 0) (get_request "/Client/5"))
              (client_of quiet_server) (snd (reply true properties_body)) properties_body
              (PyBool true) (PyBool true) (PyBool false)
              eq_refl eq_refl eq_refl eq_refl eq_refl eq_refl eq_refl)
    as (H1 & _ & _ & _ & _ & H6).
  split.
  - apply H1. reflexivity.
  - apply H6. discriminate.
Defined.

(** X12 on the setting: the server lists [ClientA] with the empty
    identifier. *)
Lemma empty_identifier_recurses_witness :
  fst (@Client__init__ utc_host plain_wrappers 25 blank_server (PyStr "ClientA") PyNone
         (world_at 0)) = Raise RecursionError.
Proof.
  apply (@empty_identifier_recurses utc_host plain_wrappers blank_server
           {[ "clienta" := EmptyString ]} (PyStr "ClientA")).
  - intros w. eexists. reflexivity.
  - reflexivity.
  - reflexivity.
Defined.

(** X13 on the setting: a number as the time, and, on a host whose
    [time.mktime] refuses it, the year 1960. *)
Lemma enable_time_errors_witness :
  @call utc_host (client_of quiet_server) (EnableAtTime Backup (PyInt 2030)) (world_at 0)
    = (Raise TypeError, world_at 0)
  /\ @call epoch_host epoch_client (EnableAtTime Restore (PyStr "1960-01-01 00:00:00"))
       (world_at 0)
     = (Raise OverflowError, world_at 0).
Proof.
  split.
  - apply (proj1 (@enable_time_errors utc_host (client_of quiet_server) Backup
                    (world_at 0))).
    reflexivity.
  - apply (proj2 (proj2 (@enable_time_errors epoch_host epoch_client Restore (world_at 0)))
             "1960-01-01 00:00:00"
             {| tm_year := 1960; tm_mon := 1; tm_mday := 1;
                tm_hour := 0; tm_min := 0; tm_sec := 0 |}).
    + reflexivity.
    + reflexivity.
    + discriminate.
Defined.

(** X14 on the setting: the request of a scheduled enabling of backup. *)
Lemma operation_sends_one_post_witness :
  exists doc,
    snd (@call utc_host (client_of failing_server)
           (EnableAtTime Backup (PyStr new_year_2030)) (world_at 0))
    = after_request (world_at 0) (post_request (client_of failing_server) doc)
    /\ association_name doc = Return (PyStr "clienta")
    /\ option_records doc =
       Return (PyList [PyDict [("activityType", PyInt 1);
                               ("enableAfterADelay", PyBool true);
                               ("enableActivityType", PyBool false);
                               ("dateTime",
                                 PyDict [("TimeZoneName", PyStr UTC_zone);
                                         ("timeValue", PyStr new_year_2030)])]]).
Proof.
  destruct (@operation_sends_one_post utc_host (client_of failing_server)
              (EnableAtTime Backup (PyStr new_year_2030)) (world_at 0) eq_refl)
    as (doc & H1 & H2 & H3).
  exists doc. split; [exact H1|]. split; [exact H2|]. apply H3. reflexivity.
Defined.

(** X15 on the setting: an option the builder does not know. *)
Lemma request_json_unknown_option_witness :
  @_request_json_ utc_host (client_of quiet_server) "Archive" (PyBool true) PyNone
    = Raise (KeyError (PyStr "Archive")).
Proof.
  apply (@request_json_unknown_option utc_host (client_of quiet_server) "Archive"
           (PyBool true) PyNone); discriminate.
Defined.

(** X16 on the setting: the entity built for [ClientA] and the integer 5. *)
Lemma built_entity_attributes_witness :
  @client_name utc_host (client_of quiet_server) = "clienta"
  /\ @client_id utc_host (client_of quiet_server) = "5"
  /\ @_CLIENT utc_host (client_of quiet_server) = "/Client/5".
Proof.
  destruct (@built_entity_attributes utc_host plain_wrappers 0 quiet_server
              (PyStr "ClientA") (PyInt 5) (world_at 0)
              (after_request (world_at 0) (get_request "/Client/5"))
              (client_of quiet_server) eq_refl) as (H1 & _ & H3 & _ & H5).
  split; [exact H1|]. split; [apply H5; reflexivity | rewrite H3; reflexivity].
Defined.
